(** * Clip-Maker: a shallow embedding of [bot.py]

    The bot collects a video, a title, a channel name, a clip length and a
    background colour over a five-step conversation, then means to cut the
    video into clips with ffmpeg and to send them one by one.

    Modelling conventions.
    - Python [int] is [Z].  A Python [str] is the [string] of its UTF-8
      bytes.  A Python [float] is an IEEE 754 binary64 value
      ([spec_float] with 53 bits of precision): [/] rounds to nearest even
      and raises as Python does, [math.ceil] is exact.
    - [context.user_data] is a record of optional fields, one per key the
      handlers write; reading an absent key raises [KeyError].
    - The file system is a finite map from paths to node kinds.
    - Handlers are computations in a state / exception / trace monad; the
      outcome of every call that leaves the process (ffprobe, ffmpeg,
      Telegram) is read from an [environment] of oracles, so a theorem
      quantified over the environment covers every combination of
      failures.
    - The libraries are python-telegram-bot 20 and ffmpeg-python 0.2.0,
      the releases the imports of [bot.py] fit.  What the embedding takes
      from them is written where it is used: the methods an ffmpeg-python
      stream has ([Ffmpeg.stream_operators]), the dispatch of a
      [ConversationHandler] ([select], [process_update]). *)

From Stdlib Require Import ZArith QArith Qround Qminmax Lia Lqa List.
From Stdlib Require Import Ascii String DecimalString DecimalPos DecimalZ.
From Stdlib Require Import SpecFloat.
From stdpp Require Import base option list gmap strings.

Open Scope Z_scope.
Open Scope string_scope.

(** ** Python values: [str(int)], [int(str)], [str.lower] *)

Module Py.

(** [str(n)] for an [int]: decimal digits, a leading [-] when negative. *)
Definition str (n : Z) : string := NilEmpty.string_of_int (Z.to_int n).

(** What [int()] asks the interpreter's Unicode database about a code
    point from 127 on: its decimal digit value ([Py_UNICODE_TODECIMAL]) and
    whether it is white space ([Py_UNICODE_ISSPACE]).  The answers depend
    on the Unicode version the interpreter was built with. *)
Record Unicode := {
  to_decimal : N -> option N;
  is_unicode_space : N -> bool }.

(** The first code point of every run of ten decimal digits beyond ASCII,
    and the white space beyond ASCII, in Unicode 14.0 (CPython 3.11). *)
Definition decimal_zeros_14 : list N :=
  [ 1632; 1776; 1984; 2406; 2534; 2662; 2790; 2918; 3046; 3174; 3302; 3430;
    3558; 3664; 3792; 3872; 4160; 4240; 6112; 6160; 6470; 6608; 6784; 6800;
    6992; 7088; 7232; 7248; 42528; 43216; 43264; 43472; 43504; 43600; 44016;
    65296; 66720; 68912; 69734; 69872; 69942; 70096; 70384; 70736; 70864;
    71248; 71360; 71472; 71904; 72016; 72784; 73040; 73120; 92768; 92864;
    93008; 120782; 120792; 120802; 120812; 120822; 123200; 123632; 125264;
    130032 ]%N.

Definition spaces_14 : list N :=
  [ 133; 160; 5760; 8192; 8193; 8194; 8195; 8196; 8197; 8198; 8199; 8200;
    8201; 8202; 8232; 8233; 8239; 8287; 12288 ]%N.

Definition unicode_14 : Unicode :=
  {| to_decimal := fun c =>
       match List.find (fun z => (z <=? c)%N && (c <? z + 10)%N) decimal_zeros_14 with
       | Some z => Some (c - z)%N
       | None => None
       end;
     is_unicode_space := fun c => List.existsb (N.eqb c) spaces_14 |}.

(** UTF-8: the code points of a [str].  Bytes that are no UTF-8 (no [str]
    has them) are read as U+FFFD. *)
Definition continuation (b : ascii) : option N :=
  let n := N_of_ascii b in
  if ((128 <=? n) && (n <? 192))%N then Some (n - 128)%N else None.

Fixpoint decode (s : string) : list N :=
  match s with
  | EmptyString => []
  | String b1 r1 =>
      let n1 := N_of_ascii b1 in
      if (n1 <? 128)%N then n1 :: decode r1
      else
        match r1 with
        | String b2 r2 =>
            match continuation b2 with
            | Some c2 =>
                if ((194 <=? n1) && (n1 <? 224))%N
                then ((n1 - 192) * 64 + c2)%N :: decode r2
                else
                  match r2 with
                  | String b3 r3 =>
                      match continuation b3 with
                      | Some c3 =>
                          let cp3 := ((n1 - 224) * 4096 + c2 * 64 + c3)%N in
                          if ((224 <=? n1) && (n1 <? 240) && (2048 <=? cp3)
                              && negb ((55296 <=? cp3) && (cp3 <? 57344)))%N
                          then cp3 :: decode r3
                          else
                            match r3 with
                            | String b4 r4 =>
                                match continuation b4 with
                                | Some c4 =>
                                    let cp4 := ((n1 - 240) * 262144 + c2 * 4096
                                                + c3 * 64 + c4)%N in
                                    if ((240 <=? n1) && (n1 <? 245) && (65536 <=? cp4)
                                        && (cp4 <? 1114112))%N
                                    then cp4 :: decode r4
                                    else 65533%N :: decode r1
                                | None => 65533%N :: decode r1
                                end
                            | EmptyString => 65533%N :: decode r1
                            end
                      | None => 65533%N :: decode r1
                      end
                  | EmptyString => 65533%N :: decode r1
                  end
            | None => 65533%N :: decode r1
            end
        | EmptyString => [65533%N]
        end
  end.

Fixpoint is_ascii (s : string) : bool :=
  match s with
  | EmptyString => true
  | String b r => (N_of_ascii b <? 128)%N && is_ascii r
  end.

(** [_PyUnicode_TransformDecimalAndSpaceToASCII], on a text that is not
    ASCII: code points below 127 are kept, white space becomes a blank, a
    decimal digit its ASCII digit; at the first other code point the
    result ends with a [?]. *)
Fixpoint transform (db : Unicode) (cps : list N) : string :=
  match cps with
  | [] => EmptyString
  | c :: r =>
      if (c <? 127)%N then String (ascii_of_N c) (transform db r)
      else if is_unicode_space db c then String " " (transform db r)
      else
        match to_decimal db c with
        | Some d => String (ascii_of_N (48 + d)) (transform db r)
        | None => "?"
        end
  end.

(** [Py_ISSPACE]: blank, [\t], [\n], [\v], [\f], [\r]. *)
Definition is_space (c : ascii) : bool :=
  let n := nat_of_ascii c in
  ((9 <=? n)%nat && (n <=? 13)%nat) || (n =? 32)%nat.

Definition digit_value (c : ascii) : option N :=
  let n := nat_of_ascii c in
  if ((48 <=? n)%nat && (n <=? 57)%nat)%bool then Some (N.of_nat (n - 48)) else None.

Fixpoint skip_spaces (s : string) : string :=
  match s with
  | String c s' => if is_space c then skip_spaces s' else s
  | EmptyString => s
  end.

Fixpoint all_spaces (s : string) : bool :=
  match s with
  | String c s' => is_space c && all_spaces s'
  | EmptyString => true
  end.

(** [sys.get_int_max_str_digits()], by default. *)
Definition max_str_digits : nat := 4300.

(** The digit loop of [PyLong_FromString] in base ten: digits, single
    underscores between digits, then only white space up to the end.
    [prev_us] records that the previous character was an underscore,
    [count] the digits read. *)
Fixpoint scan_digits (s : string) (prev_us : bool) (acc : N) (count : nat)
    : option (N * nat) :=
  match s with
  | EmptyString => if prev_us then None else Some (acc, count)
  | String c s' =>
      match digit_value c with
      | Some d => scan_digits s' false (10 * acc + d)%N (S count)
      | None =>
          if prev_us then None
          else if Ascii.eqb c "_" then scan_digits s' true acc count
          else if all_spaces s then Some (acc, count) else None
      end
  end.

(** [PyLong_FromString(s, 10)] on the transformed text: [None] stands for
    [ValueError]. *)
Definition long_from_string (text : string) : option Z :=
  let s := skip_spaces text in
  let '(neg, body) :=
    match s with
    | String "-" r => (true, r)
    | String "+" r => (false, r)
    | _ => (false, s)
    end in
  match body with
  | String c _ =>
      match digit_value c with
      | Some _ =>
          match scan_digits body false 0 0 with
          | Some (n, count) =>
              if (count <=? max_str_digits)%nat
              then Some (if neg then - Z.of_N n else Z.of_N n)
              else None
          | None => None
          end
      | None => None
      end
  | EmptyString => None
  end.

(** [int(text)]: [None] stands for [ValueError]. *)
Definition int (db : Unicode) (text : string) : option Z :=
  long_from_string (if is_ascii text then text else transform db (decode text)).

(** [str.lower()], as far as it decides whether the result is a given
    ASCII word: ASCII capitals become small letters and the Kelvin sign
    (U+212A) becomes [k]; every other code point beyond ASCII lowers to
    text that is not ASCII either, and is left as it is. *)
Definition lower_ascii (c : ascii) : ascii :=
  let n := nat_of_ascii c in
  if ((65 <=? n)%nat && (n <=? 90)%nat)%bool then ascii_of_nat (n + 32) else c.

Fixpoint lower (s : string) : string :=
  match s with
  | EmptyString => EmptyString
  | String b1 r1 =>
      match r1 with
      | String b2 (String b3 r3) =>
          if ((N_of_ascii b1 =? 226) && (N_of_ascii b2 =? 132)
              && (N_of_ascii b3 =? 170))%N
          then String "k" (lower r3)
          else String (lower_ascii b1) (lower r1)
      | _ => String (lower_ascii b1) (lower r1)
      end
  end.

End Py.

(** ** Exceptions and results *)

(** The exceptions the handlers can meet.  [FfmpegError] is [ffmpeg.Error];
    [TelegramError] is any failure of a Telegram call; [AttributeError]
    carries the type of the object and the attribute it lacks. *)
Inductive exn :=
  | KeyError (key : string)
  | ValueError
  | TypeError
  | ZeroDivisionError
  | OverflowError
  | AttributeError (type attribute : string)
  | FfmpegError
  | TelegramError
  | FileNotFoundError (path : string)
  | PermissionError (path : string).

Inductive result (A : Type) :=
  | Ok (a : A)
  | Raise (e : exn).
Arguments Ok {A} a.
Arguments Raise {A} e.

(** ** Python floats *)

Module Float.

Definition prec : Z := 53.
Definition emax : Z := 1024.

(** A [float]: an IEEE 754 double. *)
Definition float : Type := spec_float.

(** The double nearest to [m * 2^e], ties to even. *)
Definition round (m e : Z) : float := binary_normalize prec emax m e false.

(** [float(n)] for an [int], as the arithmetic converts its operands:
    correctly rounded; an [int] beyond the doubles raises. *)
Definition of_int (n : Z) : result float :=
  match round n 0 with
  | S754_infinity _ => Raise OverflowError
  | x => Ok x
  end.

Definition is_zero (x : float) : bool :=
  match x with
  | S754_zero _ => true
  | _ => false
  end.

(** [a / n] for a [float] and an [int]: the [int] is converted first, then
    a zero divisor is refused. *)
Definition truediv (a : float) (n : Z) : result float :=
  match of_int n with
  | Ok b => if is_zero b then Raise ZeroDivisionError else Ok (SFdiv prec emax a b)
  | Raise e => Raise e
  end.

(** [math.ceil(x)]: the least [int] not below [x]; infinities and NaN
    have none. *)
Definition ceil (x : float) : result Z :=
  match x with
  | S754_zero _ => Ok 0
  | S754_infinity _ => Raise OverflowError
  | S754_nan => Raise ValueError
  | S754_finite s m e =>
      let v := if s then Z.neg m else Z.pos m in
      match e with
      | Z.neg p => Ok (- ((- v) / 2 ^ Z.pos p))
      | _ => Ok (v * 2 ^ e)
      end
  end.

(** The value of a finite float, as a fraction. *)
Definition to_Q (x : float) : option Q :=
  match x with
  | S754_zero _ => Some 0%Q
  | S754_finite s m e =>
      let v := if s then Z.neg m else Z.pos m in
      match e with
      | Z.neg p => Some (v # (2 ^ p))%Q
      | _ => Some (inject_Z (v * 2 ^ e))
      end
  | _ => None
  end.

(** Not below zero: a zero of either sign, a positive number, [+inf]. *)
Definition nonneg (x : float) : bool :=
  match x with
  | S754_zero _ => true
  | S754_finite s _ _ | S754_infinity s => negb s
  | S754_nan => false
  end.

(** Not above zero: a zero of either sign, a negative number, [-inf]. *)
Definition nonpos (x : float) : bool :=
  match x with
  | S754_zero _ => true
  | S754_finite s _ _ | S754_infinity s => s
  | S754_nan => false
  end.

End Float.

(** ** The ffmpeg filter graph the loop body describes *)

Module Ffmpeg.

(** [ffmpeg.input(filename, ss=..., t=..., f=...)]. *)
Record Input := {
  in_filename : string;
  in_ss : option Z;
  in_t : option Z;
  in_f : option string }.

(** Keyword arguments of [ffmpeg.drawtext]. *)
Record Drawtext := {
  text : string;
  x : string;
  y : string;
  fontsize : Z;
  fontcolor : string;
  fontfile : string;
  box : option Z;
  boxcolor : option string;
  boxborderw : option Z }.

(** A stream of the graph: an input, one of its two parts, or the output
    of a filter applied to a stream. *)
Inductive Stream :=
  | whole (i : Input)
  | video (i : Input)
  | audio (i : Input)
  | filtered (s : Stream) (name : string) (args : list Z)
  | overlay (main over : Stream) (ox oy : string)
  | drawtext (s : Stream) (a : Drawtext).

(** [ffmpeg.output(video, audio, filename, vcodec=..., ...)]. *)
Record Output := {
  out_video : Stream;
  out_audio : Stream;
  out_filename : string;
  vcodec : string;
  acodec : string;
  preset : string;
  movflags : string }.

(** The methods ffmpeg-python gives its streams (the functions it
    registers with [filter_operator], in [_filters.py] and [_ffmpeg.py]).
    There is no [scale] among them: scaling is written
    [stream.filter('scale', w, h)]. *)
Definition stream_operators : list string :=
  [ "filter"; "filter_"; "filter_multi_output"; "split"; "asplit"; "setpts";
    "trim"; "overlay"; "hflip"; "vflip"; "crop"; "drawbox"; "drawtext";
    "concat"; "zoompan"; "hue"; "colorchannelmixer"; "output" ].

(** The [drawtext] layers drawn on a stream's frame, in the order they
    were applied; what an [overlay] puts on top arrives as a picture and
    brings no layer of its own. *)
Fixpoint layers (s : Stream) : list Drawtext :=
  match s with
  | drawtext s' a => layers s' ++ [a]
  | filtered s' _ _ => layers s'
  | overlay m _ _ _ => layers m
  | whole _ | video _ | audio _ => []
  end.

(** The media inputs a stream reads. *)
Fixpoint inputs (s : Stream) : list Input :=
  match s with
  | whole i | video i | audio i => [i]
  | filtered s' _ _ | drawtext s' _ => inputs s'
  | overlay m o _ _ => inputs m ++ inputs o
  end.

(** The cut an input makes in its file: [ss] and [t]. *)
Definition window (i : Input) : option (Z * Z) :=
  match in_ss i, in_t i with
  | Some s, Some t => Some (s, t)
  | _, _ => None
  end.

End Ffmpeg.

Import Ffmpeg.

(** The values the body of the [for] loop of [get_color_and_process]
    builds, from [part_num] to [ffmpeg.output].  [video_clip] is what
    [input_stream.video.scale(1000, -1)] returned. *)
Section Composition.
Variables (video_path title channel color : string).
Variables (clip_duration user_id : Z).

Definition font_path : string := "fonts/LiberationSans-Regular.ttf".

Definition part_num (i : Z) : Z := i + 1.
Definition start_time (i : Z) : Z := i * clip_duration.
Definition output_filename (i : Z) : string :=
  "part_" ++ Py.str (part_num i) ++ "_" ++ Py.str user_id ++ ".mp4".

Definition input_stream (i : Z) : Input :=
  {| in_filename := video_path; in_ss := Some (start_time i);
     in_t := Some clip_duration; in_f := None |}.

Definition audio_clip (i : Z) : Stream := audio (input_stream i).

Definition background : Input :=
  {| in_filename := "color=c=" ++ color ++ ":s=1080x1920";
     in_ss := None; in_t := Some clip_duration; in_f := Some "lavfi" |}.

Definition title_layer : Drawtext :=
  {| text := title; x := "(w-text_w)/2"; y := "(h-text_h)/2 - 700";
     fontsize := 70; fontcolor := "black"; fontfile := font_path;
     box := None; boxcolor := None; boxborderw := None |}.

Definition channel_layer : Drawtext :=
  {| text := channel; x := "40"; y := "40";
     fontsize := 40; fontcolor := "white"; fontfile := font_path;
     box := Some 1; boxcolor := Some "black@0.5"; boxborderw := Some 10 |}.

Definition part_layer (i : Z) : Drawtext :=
  {| text := "PART " ++ Py.str (part_num i);
     x := "(w-text_w)/2"; y := "(h-text_h)/2 + 700";
     fontsize := 60; fontcolor := "black"; fontfile := font_path;
     box := None; boxcolor := None; boxborderw := None |}.

Definition processed_video (video_clip : Stream) (i : Z) : Stream :=
  drawtext
    (drawtext
       (drawtext
          (overlay (whole background) video_clip "(W-w)/2" "(H-h)/2")
          title_layer)
       channel_layer)
    (part_layer i).

Definition output (video_clip : Stream) (i : Z) : Output :=
  {| out_video := processed_video video_clip i; out_audio := audio_clip i;
     out_filename := output_filename i;
     vcodec := "libx264"; acodec := "aac"; preset := "fast";
     movflags := "frag_keyframe+empty_moov" |}.

End Composition.

(** [range(n)]: empty when [n <= 0]. *)
Definition range (n : Z) : list Z := map Z.of_nat (seq 0 (Z.to_nat n)).

(** ** ffmpeg's arithmetic expressions

    [drawtext] and [overlay] receive their positions as expression strings
    which ffmpeg evaluates per frame.  The fragment below (numbers, names,
    the four operations, unary minus, parentheses) covers every expression
    the bot writes. *)

Module Expr.

Inductive token :=
  | TNum (n : N) | TId (s : string) | TOp (c : ascii) | TLp | TRp.

Inductive expr :=
  | Num (n : N)
  | Var (s : string)
  | Neg (e : expr)
  | Bin (op : ascii) (l r : expr).

Definition is_alpha (c : ascii) : bool :=
  let n := nat_of_ascii c in
  ((65 <=? n)%nat && (n <=? 90)%nat) || ((97 <=? n)%nat && (n <=? 122)%nat)
  || (n =? 95)%nat.

Definition is_additive (c : ascii) : bool := (Ascii.eqb c "+" || Ascii.eqb c "-")%bool.
Definition is_multiplicative (c : ascii) : bool := (Ascii.eqb c "*" || Ascii.eqb c "/")%bool.

(** One pass over the characters; [cur] is the token being read. *)
Fixpoint lex (s : string) (cur : option token) : option (list token) :=
  let flush : list token := match cur with Some t => [t] | None => [] end in
  match s with
  | EmptyString => Some flush
  | String c s' =>
      match Py.digit_value c, cur with
      | Some d, Some (TNum n) => lex s' (Some (TNum (10 * n + d)))
      | Some d, Some (TId i) => lex s' (Some (TId (i ++ String c "")))
      | Some d, _ => option_map (app flush) (lex s' (Some (TNum d)))
      | None, _ =>
          if is_alpha c then
            match cur with
            | Some (TId i) => lex s' (Some (TId (i ++ String c "")))
            | Some (TNum _) => None
            | _ => option_map (app flush) (lex s' (Some (TId (String c ""))))
            end
          else
            let one (t : token) := option_map (fun r => (flush ++ t :: r)%list) (lex s' None) in
            if Ascii.eqb c " " then option_map (app flush) (lex s' None)
            else if Ascii.eqb c "(" then one TLp
            else if Ascii.eqb c ")" then one TRp
            else if (is_additive c || is_multiplicative c)%bool then one (TOp c)
            else None
      end
  end.

Inductive level := Sum | Product | Atom.

(** Recursive descent with the usual precedences and left associativity;
    [fuel] bounds the number of steps. *)
Fixpoint parse_level (fuel : nat) (lvl : level) (ts : list token)
    : option (expr * list token) :=
  match fuel with
  | O => None
  | S fuel =>
      match lvl with
      | Atom =>
          match ts with
          | TNum n :: r => Some (Num n, r)
          | TId i :: r => Some (Var i, r)
          | TOp c :: r =>
              if Ascii.eqb c "-" then
                match parse_level fuel Atom r with
                | Some (e, r') => Some (Neg e, r')
                | None => None
                end
              else None
          | TLp :: r =>
              match parse_level fuel Sum r with
              | Some (e, TRp :: r') => Some (e, r')
              | _ => None
              end
          | _ => None
          end
      | Product =>
          match parse_level fuel Atom ts with
          | Some (e, r) => parse_tail fuel Product e r
          | None => None
          end
      | Sum =>
          match parse_level fuel Product ts with
          | Some (e, r) => parse_tail fuel Sum e r
          | None => None
          end
      end
  end
with parse_tail (fuel : nat) (lvl : level) (l : expr) (ts : list token)
    : option (expr * list token) :=
  match fuel with
  | O => None
  | S fuel =>
      match ts with
      | TOp c :: r =>
          match lvl with
          | Sum =>
              if is_additive c then
                match parse_level fuel Product r with
                | Some (e, r') => parse_tail fuel Sum (Bin c l e) r'
                | None => None
                end
              else Some (l, ts)
          | Product =>
              if is_multiplicative c then
                match parse_level fuel Atom r with
                | Some (e, r') => parse_tail fuel Product (Bin c l e) r'
                | None => None
                end
              else Some (l, ts)
          | Atom => Some (l, ts)
          end
      | _ => Some (l, ts)
      end
  end.

Definition parse (s : string) : option expr :=
  match lex s None with
  | Some ts =>
      match parse_level (4 * length ts + 4) Sum ts with
      | Some (e, []) => Some e
      | _ => None
      end
  | None => None
  end.

(** Evaluation over the rationals; [None] for an unknown name or a
    division by zero. *)
Fixpoint eval (env : string -> option Q) (e : expr) : option Q :=
  match e with
  | Num n => Some (inject_Z (Z.of_N n))
  | Var v => env v
  | Neg e =>
      match eval env e with Some q => Some (- q)%Q | None => None end
  | Bin op l r =>
      match eval env l, eval env r with
      | Some a, Some b =>
          if Ascii.eqb op "+" then Some (a + b)%Q
          else if Ascii.eqb op "-" then Some (a - b)%Q
          else if Ascii.eqb op "*" then Some (a * b)%Q
          else if Qeq_bool b 0 then None else Some (a / b)%Q
      | _, _ => None
      end
  end.

(** The names [drawtext] binds: the frame size and the measured text box. *)
Definition drawtext_env (frame_w frame_h text_w text_h : Q) (v : string) : option Q :=
  if String.eqb v "w" || String.eqb v "W" || String.eqb v "main_w" then Some frame_w
  else if String.eqb v "h" || String.eqb v "H" || String.eqb v "main_h" then Some frame_h
  else if String.eqb v "text_w" || String.eqb v "tw" then Some text_w
  else if String.eqb v "text_h" || String.eqb v "th" then Some text_h
  else None.

(** The names [overlay] binds: the size of the main input and of the
    overlaid one. *)
Definition overlay_env (main_w main_h over_w over_h : Q) (v : string) : option Q :=
  if String.eqb v "W" || String.eqb v "main_w" then Some main_w
  else if String.eqb v "H" || String.eqb v "main_h" then Some main_h
  else if String.eqb v "w" || String.eqb v "overlay_w" then Some over_w
  else if String.eqb v "h" || String.eqb v "overlay_h" then Some over_h
  else None.

Definition eval_string (env : string -> option Q) (s : string) : option Q :=
  match parse s with
  | Some e => eval env e
  | None => None
  end.

End Expr.

(** ** The world the handlers run in *)

(** Texts sent with [reply_text], one constructor per text of [bot.py];
    the formatted ones carry the values they print. *)
Inductive message :=
  | MsgStart               (* Hi! I can split your video into clips ... *)
  | MsgAskTitle            (* Great! Now, what should be the main title ... *)
  | MsgAskChannel          (* Got it. What is your channel/username? *)
  | MsgAskDuration         (* Perfect. What duration (in seconds) ... *)
  | MsgNotValidNumber      (* That's not a valid number. Please enter ... *)
  | MsgAskColor            (* Almost done! What background color ... *)
  | MsgAllSet              (* All set! I'm starting to process your video. *)
  | MsgDetected (total_duration : Float.float) (num_clips : Z)
                           (* Video detected. Total duration: ... *)
  | MsgProcessing (part num_clips : Z)
                           (* Processing Part {part_num}/{num_clips}... *)
  | MsgAllDone             (* All done! I have sent you all the clips. *)
  | MsgError (e : exn)     (* An error occurred during processing: {e} *)
  | MsgCancelled.          (* Operation cancelled. Send /start to begin again. *)

(** Every call a handler makes to Telegram, ffmpeg-python, the file system
    and the log, with its outcome. *)
Inductive event :=
  | EReply (m : message) (ok : bool)
  | EDownload (path : string) (ok : bool)
  | EProbe (path : string) (ok : bool)
  | EInput (i : Input)
  | ERun (o : Output) (ok : bool)
  | EOpen (path : string) (ok : bool)
  | ESendVideo (chat : Z) (path : string) (ok : bool)
  | EExists (path : string) (found : bool)
  | ERemove (path : string) (ok : bool)
  | ELogError (e : exn)
  | ELogInfo.

(** A path names an ordinary file, or an entry [os.remove] cannot unlink
    (it raises [PermissionError]: a file in a directory that is not
    writable, a file another process holds open). *)
Inductive node := Regular | Protected.

(** [context.user_data]: the keys the handlers write. *)
Record UserData := {
  ud_video_path : option string;
  ud_title : option string;
  ud_channel : option string;
  ud_duration : option Z;
  ud_color : option string }.

(** [user_data[key] = value], one function per key. *)
Definition with_video_path (p : string) (u : UserData) : UserData :=
  {| ud_video_path := Some p; ud_title := ud_title u; ud_channel := ud_channel u;
     ud_duration := ud_duration u; ud_color := ud_color u |}.
Definition with_title (t : string) (u : UserData) : UserData :=
  {| ud_video_path := ud_video_path u; ud_title := Some t; ud_channel := ud_channel u;
     ud_duration := ud_duration u; ud_color := ud_color u |}.
Definition with_channel (c : string) (u : UserData) : UserData :=
  {| ud_video_path := ud_video_path u; ud_title := ud_title u; ud_channel := Some c;
     ud_duration := ud_duration u; ud_color := ud_color u |}.
Definition with_duration (n : Z) (u : UserData) : UserData :=
  {| ud_video_path := ud_video_path u; ud_title := ud_title u; ud_channel := ud_channel u;
     ud_duration := Some n; ud_color := ud_color u |}.
Definition with_color (c : string) (u : UserData) : UserData :=
  {| ud_video_path := ud_video_path u; ud_title := ud_title u; ud_channel := ud_channel u;
     ud_duration := ud_duration u; ud_color := Some c |}.

Record state := {
  user_data : UserData;
  fs : gmap string node;
  replies : nat  (* [reply_text] calls made so far *) }.

(** The state after one more [reply_text], with [u] as user data. *)
Definition replied (u : UserData) (s : state) : state :=
  {| user_data := u; fs := fs s; replies := S (replies s) |}.

(** Outcomes of the external calls, and the interpreter's Unicode
    database.  [probe] is the outcome of lines 92 and 93 together,
    [ffmpeg.probe(path)] followed by [float(probe['format']['duration'])]:
    the float read, or the exception raised ([ffmpeg.Error] when ffprobe
    fails, [KeyError] when its answer has no duration, [ValueError] or
    [TypeError] when the duration is no number).  [reply_ok k] tells
    whether the [k]-th [reply_text] call goes through. *)
Record environment := {
  unicode : Py.Unicode;
  download_ok : string -> bool;
  probe : string -> result Float.float;
  run_ok : Output -> bool;
  send_ok : string -> bool;
  reply_ok : nat -> bool }.

(** [context._user_id] and [update.effective_chat.id]. *)
Record context := { _user_id : Z; chat_id : Z }.

Definition M (A : Type) : Type := state -> result A * state * list event.

Definition ret {A} (a : A) : M A := fun s => (Ok a, s, []).
Definition raise {A} (e : exn) : M A := fun s => (Raise e, s, []).

(** A computation that touches nothing: a value or an exception. *)
Definition lift {A} (r : result A) : M A := fun s => (r, s, []).

Definition bind {A B} (m : M A) (k : A -> M B) : M B :=
  fun s =>
    match m s with
    | (Ok a, s1, ev1) =>
        match k a s1 with
        | (r, s2, ev2) => (r, s2, (ev1 ++ ev2)%list)
        end
    | (Raise e, s1, ev1) => (Raise e, s1, ev1)
    end.

Notation "x <- m ;; k" := (bind m (fun x => k))
  (at level 20, m at level 99, k at level 200, only parsing).
Notation "m ;; k" := (bind m (fun _ => k))
  (at level 100, k at level 200, right associativity, only parsing).

(** [try: body except Exception as e: handler e]. *)
Definition try_except {A} (body : M A) (handler : exn -> M A) : M A :=
  fun s =>
    match body s with
    | (Ok a, s1, ev1) => (Ok a, s1, ev1)
    | (Raise e, s1, ev1) =>
        match handler e s1 with
        | (r, s2, ev2) => (r, s2, (ev1 ++ ev2)%list)
        end
    end.

(** [try: body finally: final]: [final] runs on every path; when it raises,
    its exception replaces the outcome of [body]. *)
Definition try_finally {A} (body : M A) (final : M unit) : M A :=
  fun s =>
    match body s with
    | (r, s1, ev1) =>
        match final s1 with
        | (Ok _, s2, ev2) => (r, s2, (ev1 ++ ev2)%list)
        | (Raise e, s2, ev2) => (Raise e, s2, (ev1 ++ ev2)%list)
        end
    end.

(** [for i in l: body i]. *)
Fixpoint for_each (l : list Z) (body : Z -> M unit) : M unit :=
  match l with
  | [] => ret tt
  | i :: l' => body i ;; for_each l' body
  end.

(** [context.user_data[key] = value]. *)
Definition set_user_data (f : UserData -> UserData) : M unit :=
  fun s => (Ok tt, {| user_data := f (user_data s); fs := fs s; replies := replies s |}, []).

(** [context.user_data[key]]. *)
Definition get_item {A} (key : string) (field : UserData -> option A) : M A :=
  fun s =>
    match field (user_data s) with
    | Some a => (Ok a, s, [])
    | None => (Raise (KeyError key), s, [])
    end.

Definition logger_error (e : exn) : M unit := fun s => (Ok tt, s, [ELogError e]).
Definition logger_info : M unit := fun s => (Ok tt, s, [ELogInfo]).

Section Calls.
Variable env : environment.

Definition reply_text (m : message) : M unit :=
  fun s =>
    let ok := reply_ok env (replies s) in
    (if ok then Ok tt else Raise TelegramError,
     {| user_data := user_data s; fs := fs s; replies := S (replies s) |},
     [EReply m ok]).

(** A file that is written where none was becomes an ordinary file; an
    existing entry keeps its kind. *)
Definition written (path : string) (files : gmap string node) : gmap string node :=
  match files !! path with
  | Some _ => files
  | None => <[path := Regular]> files
  end.

(** [video.get_file()] and [download_to_drive(path)]. *)
Definition download_to_drive (path : string) : M unit :=
  fun s =>
    if download_ok env path
    then (Ok tt, {| user_data := user_data s; fs := written path (fs s);
                    replies := replies s |}, [EDownload path true])
    else (Raise TelegramError, s, [EDownload path false]).

(** Lines 92 and 93. *)
Definition ffmpeg_probe (path : string) : M Float.float :=
  fun s =>
    match probe env path with
    | Ok d => (Ok d, s, [EProbe path true])
    | Raise e => (Raise e, s, [EProbe path false])
    end.

(** [ffmpeg.input(...)]: declares an input of the graph. *)
Definition ffmpeg_input (i : Input) : M Input :=
  fun s => (Ok i, s, [EInput i]).

(** [stream.name(args)]: the filter node when ffmpeg-python has such a
    method, [AttributeError] when it has not. *)
Definition stream_method (stream : Stream) (name : string) (args : list Z) : M Stream :=
  if bool_decide (name ∈ stream_operators)
  then ret (filtered stream name args)
  else raise (AttributeError "FilterableStream" name).

(** [ffmpeg.run(output, overwrite_output=True)]. *)
Definition ffmpeg_run (o : Output) : M unit :=
  fun s =>
    if run_ok env o
    then (Ok tt, {| user_data := user_data s; fs := written (out_filename o) (fs s);
                    replies := replies s |}, [ERun o true])
    else (Raise FfmpegError, s, [ERun o false]).

(** [open(path, 'rb')]. *)
Definition open_rb (path : string) : M unit :=
  fun s =>
    match fs s !! path with
    | Some _ => (Ok tt, s, [EOpen path true])
    | None => (Raise (FileNotFoundError path), s, [EOpen path false])
    end.

Definition send_video (chat : Z) (path : string) : M unit :=
  fun s =>
    if send_ok env path
    then (Ok tt, s, [ESendVideo chat path true])
    else (Raise TelegramError, s, [ESendVideo chat path false]).

Definition os_path_exists (path : string) : M bool :=
  fun s =>
    let found := bool_decide (is_Some (fs s !! path)) in
    (Ok found, s, [EExists path found]).

Definition os_remove (path : string) : M unit :=
  fun s =>
    match fs s !! path with
    | Some Regular =>
        (Ok tt, {| user_data := user_data s; fs := delete path (fs s);
                   replies := replies s |}, [ERemove path true])
    | Some Protected => (Raise (PermissionError path), s, [ERemove path false])
    | None => (Raise (FileNotFoundError path), s, [ERemove path false])
    end.

End Calls.

(** ** The conversation handlers *)

Inductive conversation :=
  | GET_VIDEO | GET_TITLE | GET_CHANNEL | GET_DURATION | GET_COLOR | END.

Section Handlers.
Variable env : environment.
Variable ctx : context.

(** Starts the conversation and asks for a video. *)
Definition start : M conversation :=
  reply_text env MsgStart ;;
  ret GET_VIDEO.

(** Stores the video and asks for a title. *)
Definition get_video (file_id : string) : M conversation :=
  let video_path := file_id ++ ".mp4" in
  download_to_drive env video_path ;;
  set_user_data (with_video_path video_path) ;;
  reply_text env MsgAskTitle ;;
  ret GET_TITLE.

(** Stores the title and asks for the channel name. *)
Definition get_title (text : string) : M conversation :=
  set_user_data (with_title text) ;;
  reply_text env MsgAskChannel ;;
  ret GET_CHANNEL.

(** Stores the channel name and asks for clip duration. *)
Definition get_channel (text : string) : M conversation :=
  set_user_data (with_channel text) ;;
  reply_text env MsgAskDuration ;;
  ret GET_DURATION.

(** Stores the duration and asks for the background color.  The [try]
    around [int(...)] catches [ValueError] only. *)
Definition get_duration (text : string) : M conversation :=
  match Py.int (unicode env) text with
  | Some n =>
      set_user_data (with_duration n) ;;
      reply_text env MsgAskColor ;;
      ret GET_COLOR
  | None =>
      reply_text env MsgNotValidNumber ;;
      ret GET_DURATION
  end.

(** [math.ceil(total_duration / clip_duration)]. *)
Definition num_clips (total_duration : Float.float) (clip_duration : Z) : M Z :=
  quotient <- lift (Float.truediv total_duration clip_duration) ;;
  lift (Float.ceil quotient).

(** One turn of the [for] loop. *)
Definition process_clip (video_path : string) (clip_duration n : Z) (i : Z) : M unit :=
  reply_text env (MsgProcessing (part_num i) n) ;;
  input_stream <- ffmpeg_input (input_stream video_path clip_duration i) ;;
  video_clip <- stream_method (video input_stream) "scale" [1000; -1] ;;
  color <- get_item "color" ud_color ;;
  ffmpeg_input (background color clip_duration) ;;
  title <- get_item "title" ud_title ;;
  channel <- get_item "channel" ud_channel ;;
  let out :=
    output video_path title channel color clip_duration (_user_id ctx) video_clip i in
  ffmpeg_run env out ;;
  open_rb (out_filename out) ;;
  send_video env (chat_id ctx) (out_filename out) ;;
  os_remove (out_filename out).

(** The [try] block. *)
Definition process_video : M unit :=
  video_path <- get_item "video_path" ud_video_path ;;
  clip_duration <- get_item "duration" ud_duration ;;
  total_duration <- ffmpeg_probe env video_path ;;
  n <- num_clips total_duration clip_duration ;;
  reply_text env (MsgDetected total_duration n) ;;
  for_each (range n) (process_clip video_path clip_duration n) ;;
  reply_text env MsgAllDone.

(** The [except Exception as e] block. *)
Definition report_error (e : exn) : M unit :=
  logger_error e ;;
  reply_text env (MsgError e).

(** The [finally] block: clean up the original uploaded video. *)
Definition cleanup : M unit :=
  video_path <- get_item "video_path" ud_video_path ;;
  found <- os_path_exists video_path ;;
  if found then os_remove video_path else ret tt.

(** The core processing logic: [try] / [except] / [finally]. *)
Definition core_processing : M unit :=
  try_finally (try_except process_video report_error) cleanup.

(** Stores the color and starts the video processing job.  The first
    reply is sent before the [try] block is entered. *)
Definition get_color_and_process (text : string) : M conversation :=
  set_user_data (with_color text) ;;
  reply_text env MsgAllSet ;;
  core_processing ;;
  ret END.

(** Cancels and ends the conversation; removes the downloaded file when
    ['video_path'] is in the user data and the file exists. *)
Definition cancel : M conversation :=
  logger_info ;;
  (fun s =>
     match ud_video_path (user_data s) with
     | Some video_path =>
         (found <- os_path_exists video_path ;;
          if found then os_remove video_path else ret tt) s
     | None => ret tt s
     end) ;;
  reply_text env MsgCancelled ;;
  ret END.

End Handlers.

(** The value line 94 computes, or the exception it raises. *)
Definition clip_count (total_duration : Float.float) (clip_duration : Z) : result Z :=
  match Float.truediv total_duration clip_duration with
  | Ok quotient => Float.ceil quotient
  | Raise e => Raise e
  end.

(** The length the specification gives the window starting at [start]:
    [min(requestedLength, totalDuration - start)]. *)
Definition spec_length (total_duration : Q) (requested start : Z) : Q :=
  Qmin (inject_Z requested) (total_duration - inject_Z start).

(** Projections of a trace: the inputs declared, the graphs handed to
    [ffmpeg.run], the files delivered, the transcodes and deliveries that
    failed, the errors reported to the user and to the log, the paths
    tested with [os.path.exists], and the outcome of the all-done reply. *)
Definition requested (ev : list event) : list Input :=
  omap (fun e => match e with EInput i => Some i | _ => None end) ev.
Definition runs (ev : list event) : list Output :=
  omap (fun e => match e with ERun o _ => Some o | _ => None end) ev.
Definition sent (ev : list event) : list string :=
  omap (fun e => match e with ESendVideo _ p true => Some p | _ => None end) ev.
Definition failed_runs (ev : list event) : list Output :=
  omap (fun e => match e with ERun o false => Some o | _ => None end) ev.
Definition failed_sends (ev : list event) : list string :=
  omap (fun e => match e with ESendVideo _ p false => Some p | _ => None end) ev.
Definition error_reports (ev : list event) : list exn :=
  omap (fun e => match e with EReply (MsgError x) _ => Some x | _ => None end) ev.
Definition logged_errors (ev : list event) : list exn :=
  omap (fun e => match e with ELogError x => Some x | _ => None end) ev.
Definition exists_checks (ev : list event) : list string :=
  omap (fun e => match e with EExists p _ => Some p | _ => None end) ev.
Definition all_done (ev : list event) : list bool :=
  omap (fun e => match e with EReply MsgAllDone ok => Some ok | _ => None end) ev.

(** The clips the loop is to produce, in loop order, given the scaled
    stream of each. *)
Definition planned (ctx : context) (video_path title channel color : string)
    (clip_duration : Z) (video_clips : Z -> Stream) (n : Z) : list Output :=
  map (fun i => output video_path title channel color clip_duration (_user_id ctx)
                  (video_clips i) i)
      (range n).

(** The user data holds this title, channel and colour. *)
Definition styled (title channel color : string) (s : state) : Prop :=
  ud_title (user_data s) = Some title
  /\ ud_channel (user_data s) = Some channel
  /\ ud_color (user_data s) = Some color.

(** The conversation has stored a complete job. *)
Definition prepared (video_path title channel color : string) (clip_duration : Z)
    (s : state) : Prop :=
  ud_video_path (user_data s) = Some video_path
  /\ ud_duration (user_data s) = Some clip_duration
  /\ styled title channel color s.

(** [post m s Q]: running [m] from [s] ends in a result, a state and a
    trace that satisfy [Q]. *)
Definition post {A} (m : M A) (s : state)
    (Q : result A -> state -> list event -> Prop) : Prop :=
  match m s with
  | (r, s', ev) => Q r s' ev
  end.

(** The paths a job may touch: its source video and its own clips. *)
Definition own_path (ctx : context) (video_path : string) (p : string) : Prop :=
  p = video_path \/ exists i, 0 <= i /\ p = output_filename (_user_id ctx) i.

(** Every path outside [P] is as it was. *)
Definition untouched (P : string -> Prop) (s s' : state) : Prop :=
  forall p, ~ P p -> fs s' !! p = fs s !! p.

(** ** Sample runs *)

Module Sample.

Definition ctx : context := {| _user_id := 7; chat_id := 42 |}.

(** A duration of [n] seconds, as ffprobe prints and [float()] reads it. *)
Definition seconds (n : Z) : Float.float := Float.round n 0.

(** Every call succeeds. *)
Definition fair (total : Float.float) : environment :=
  {| unicode := Py.unicode_14;
     download_ok := fun _ => true; probe := fun _ => Ok total;
     run_ok := fun _ => true; send_ok := fun _ => true; reply_ok := fun _ => true |}.

(** Telegram refuses every text reply but the first [k]. *)
Definition muted (k : nat) (total : Float.float) : environment :=
  {| unicode := Py.unicode_14;
     download_ok := fun _ => true; probe := fun _ => Ok total;
     run_ok := fun _ => true; send_ok := fun _ => true;
     reply_ok := fun i => (i <? k)%nat |}.

(** ffprobe answers without a duration. *)
Definition no_duration : environment :=
  {| unicode := Py.unicode_14;
     download_ok := fun _ => true; probe := fun _ => Raise (KeyError "duration");
     run_ok := fun _ => true; send_ok := fun _ => true; reply_ok := fun _ => true |}.

Definition job (duration : Z) : UserData :=
  {| ud_video_path := Some "v.mp4"; ud_title := Some "Best of";
     ud_channel := Some "@me"; ud_duration := Some duration; ud_color := Some "orange" |}.

Definition ready (duration : Z) : state :=
  {| user_data := job duration; fs := {[ "v.mp4" := Regular ]}; replies := 0 |}.

(** The same next to a file of somebody else. *)
Definition shared (duration : Z) : state :=
  {| user_data := job duration;
     fs := {[ "v.mp4" := Regular; "notes.txt" := Regular ]}; replies := 0 |}.

(** The uploaded video cannot be unlinked. *)
Definition locked (duration : Z) : state :=
  {| user_data := job duration; fs := {[ "v.mp4" := Protected ]}; replies := 0 |}.

(** A user the bot has not heard from: no user data, no files, no reply
    sent. *)
Definition first_contact : state :=
  {| user_data := {| ud_video_path := None; ud_title := None; ud_channel := None;
                     ud_duration := None; ud_color := None |};
     fs := ∅; replies := 0 |}.



(** [60] in Arabic-Indic digits (U+0666 U+0660), in UTF-8. *)
Definition sixty_arabic_indic : string :=
  String (ascii_of_nat 217) (String (ascii_of_nat 166)
    (String (ascii_of_nat 217) (String (ascii_of_nat 160) EmptyString))).

End Sample.

(** ** The conversation wired up in [main]

    [main] registers one [ConversationHandler]: the entry point [/start],
    one message handler per state, and the fallback [/cancel].  The
    dispatch below is that of python-telegram-bot with its defaults (no
    re-entry): outside a conversation only the entry points are tried;
    inside one, the handlers of the current state and then the fallbacks;
    an update that matches nothing is left alone.  A callback that returns
    [END] ends the conversation, any other state is stored; when a callback
    raises, the application logs the exception (no error handler is
    registered) and the conversation stays where it was. *)

(** An update as the filters of [main] tell them apart: a message that is
    a command [/name] to this bot, any other text, a video; the same three
    as an edited message, where [update.message] is [None]; anything
    else. *)
Inductive update :=
  | Command (name : string)
  | Text (text : string)
  | Video (file_id : string)
  | EditedCommand (name : string)
  | EditedText (text : string)
  | EditedVideo (file_id : string)
  | Other.

(** A callback reads what it needs through [update.message]; on an update
    without one its first access, to [attribute], raises. *)
Definition on_message {A} (attribute : string) (body : A -> M conversation)
    (message : option A) : M conversation :=
  match message with
  | Some a => body a
  | None => raise (AttributeError "NoneType" attribute)
  end.

(** [CommandHandler(name, callback)],
    [MessageHandler(filters.VIDEO, callback)] and
    [MessageHandler(filters.TEXT & ~filters.COMMAND, callback)]; a callback
    is given what it reads from the message. *)
Inductive handler :=
  | CommandHandler (command : string) (callback : option unit -> M conversation)
  | VideoHandler (callback : option string -> M conversation)
  | TextHandler (callback : option string -> M conversation).

(** A [CommandHandler] compares the command in lower case; the filters
    look at the effective message, edited or not. *)
Definition check_update (h : handler) (u : update) : option (M conversation) :=
  match h, u with
  | CommandHandler command callback, Command name =>
      if String.eqb (Py.lower name) command then Some (callback (Some tt)) else None
  | CommandHandler command callback, EditedCommand name =>
      if String.eqb (Py.lower name) command then Some (callback None) else None
  | VideoHandler callback, Video file_id => Some (callback (Some file_id))
  | VideoHandler callback, EditedVideo _ => Some (callback None)
  | TextHandler callback, Text text => Some (callback (Some text))
  | TextHandler callback, EditedText _ => Some (callback None)
  | _, _ => None
  end.

Fixpoint first_match (hs : list handler) (u : update) : option (M conversation) :=
  match hs with
  | [] => None
  | h :: hs' =>
      match check_update h u with
      | Some callback => Some callback
      | None => first_match hs' u
      end
  end.

Section Main.
Variable env : environment.
Variable ctx : context.

Definition entry_points : list handler :=
  [CommandHandler "start" (on_message "reply_text" (fun _ => start env))].

Definition states (c : conversation) : list handler :=
  match c with
  | GET_VIDEO => [VideoHandler (on_message "video" (get_video env))]
  | GET_TITLE => [TextHandler (on_message "text" (get_title env))]
  | GET_CHANNEL => [TextHandler (on_message "text" (get_channel env))]
  | GET_DURATION => [TextHandler (on_message "text" (get_duration env))]
  | GET_COLOR => [TextHandler (on_message "text" (get_color_and_process env ctx))]
  | END => []
  end.

Definition fallbacks : list handler :=
  [CommandHandler "cancel" (on_message "from_user" (fun _ => cancel env))].

(** The callback an update is handed to; [None] outside a conversation. *)
Definition select (current : option conversation) (u : update)
    : option (M conversation) :=
  match current with
  | None => first_match entry_points u
  | Some c =>
      match first_match (states c) u with
      | Some callback => Some callback
      | None => first_match fallbacks u
      end
  end.

Definition stored (new : conversation) : option conversation :=
  match new with
  | END => None
  | _ => Some new
  end.

Definition handle_update (current : option conversation) (u : update)
    : M (option conversation) :=
  match select current u with
  | Some callback => new <- callback ;; ret (stored new)
  | None => ret current
  end.

(** One update through the application: an exception of the callback is
    logged and the conversation keeps its state. *)
Definition process_update (current : option conversation) (u : update)
    : M (option conversation) :=
  try_except (handle_update current u)
    (fun e => logger_error e ;; ret current).

(** The updates of one chat, in the order they arrive. *)
Fixpoint run_updates (current : option conversation) (us : list update)
    : M (option conversation) :=
  match us with
  | [] => ret current
  | u :: us' => next <- process_update current u ;; run_updates next us'
  end.

End Main.

(** The state that follows [c] in the conversation. *)
Definition following (c : conversation) : conversation :=
  match c with
  | GET_VIDEO => GET_TITLE
  | GET_TITLE => GET_CHANNEL
  | GET_CHANNEL => GET_DURATION
  | GET_DURATION => GET_COLOR
  | GET_COLOR => END
  | END => END
  end.

(** What the user data holds while the conversation waits in a state: the
    answers to the questions asked before it. *)
Definition collected (current : option conversation) (u : UserData) : Prop :=
  match current with
  | Some GET_TITLE => is_Some (ud_video_path u)
  | Some GET_CHANNEL => is_Some (ud_video_path u) /\ is_Some (ud_title u)
  | Some GET_DURATION =>
      is_Some (ud_video_path u) /\ is_Some (ud_title u) /\ is_Some (ud_channel u)
  | Some GET_COLOR =>
      is_Some (ud_video_path u) /\ is_Some (ud_title u) /\ is_Some (ud_channel u)
      /\ is_Some (ud_duration u)
  | _ => True
  end.

(** An exception that is no [KeyError], unless ffprobe's answer raised
    it (no ['format'], no ['duration']): no key of [user_data] was
    missing. *)
Definition no_key_missing (env : environment) (e : exn) : Prop :=
  forall key, e = KeyError key -> exists path, probe env path = Raise (KeyError key).

Definition logs_no_missing_key (env : environment) (e : event) : Prop :=
  match e with
  | ELogError x => no_key_missing env x
  | _ => True
  end.

(** An event that is no transcode, no opening of a clip and no delivery. *)
Definition idle (e : event) : Prop :=
  match e with
  | ERun _ _ | EOpen _ _ | ESendVideo _ _ _ => False
  | _ => True
  end.

(** ** Properties *)
(** ** File names across jobs *)

Ltac step_append H :=
  repeat match type of H with
    | context [append (String ?a ?s) ?t] =>
        change (append (String a s) t) with (String a (append s t)) in H
    | context [append EmptyString ?t] =>
        change (append EmptyString t) with t in H
    end.

Lemma uint_string_delimited (c : ascii) (d d' : Decimal.uint) (r r' : string) :
  Py.digit_value c = None ->
  (NilEmpty.string_of_uint d ++ String c r
   = NilEmpty.string_of_uint d' ++ String c r')%string ->
  d = d' /\ r = r'.
Proof.
  intros Hc. revert d'.
  induction d; intros d' H; destruct d';
    cbn [NilEmpty.string_of_uint] in H; step_append H;
    try discriminate H;
    lazymatch type of H with
    | String ?a _ = String ?a _ =>
        injection H as H; try (destruct (IHd _ H) as [-> ->]); subst; auto
    | String c _ = String _ _ =>
        injection H as -> _; vm_compute in Hc; discriminate Hc
    | String _ _ = String c _ =>
        injection H as <- _; vm_compute in Hc; discriminate Hc
    end.
Qed.

Lemma str_delimited (c : ascii) (a b : Z) (r r' : string) :
  Py.digit_value c = None -> c <> "-"%char ->
  (Py.str a ++ String c r = Py.str b ++ String c r')%string ->
  a = b /\ r = r'.
Proof.
  intros Hc Hminus H. unfold Py.str in H.
  assert (Hhead : forall u s s', (NilEmpty.string_of_uint u ++ String c s)%string
                                 <> String "-" s').
  { intros u s s' E. destruct u; cbn [NilEmpty.string_of_uint] in E; step_append E;
      try discriminate E. injection E as E _. congruence. }
  destruct (Z.to_int a) as [u | u] eqn:Ea, (Z.to_int b) as [u' | u'] eqn:Eb;
    cbn [NilEmpty.string_of_int] in H.
  - destruct (uint_string_delimited c u u' r r' Hc H) as [-> ->].
    split; [| reflexivity ]. apply DecimalZ.to_int_inj. congruence.
  - exfalso. exact (Hhead _ _ _ H).
  - exfalso. symmetry in H. exact (Hhead _ _ _ H).
  - step_append H. injection H as H.
    destruct (uint_string_delimited c u u' r r' Hc H) as [-> ->].
    split; [| reflexivity ]. apply DecimalZ.to_int_inj. congruence.
Qed.

Lemma output_filename_same (user user' i j : Z) :
  output_filename user i = output_filename user' j -> i = j /\ user = user'.
Proof.
  unfold output_filename, part_num. intros H.
  apply (inj (String.app "part_")) in H.
  apply str_delimited in H as [Hi H]; [| reflexivity | discriminate ].
  apply str_delimited in H as [Hu _]; [| reflexivity | discriminate ].
  split; [ lia | exact Hu ].
Qed.

(** Clips that differ in their index or in their user get different file
    names: concurrent jobs of different users never write to each other's
    files, and a job never overwrites one of its own clips. *)
Theorem output_filename_unique (user user' i j : Z) :
  i <> j \/ user <> user' -> output_filename user i <> output_filename user' j.
Proof.
  intros Hne E. apply output_filename_same in E as [-> ->].
  destruct Hne as [Hne | Hne]; apply Hne; reflexivity.
Qed.

(** Another user, and another clip of the same user. *)
Lemma output_filename_unique_witness :
  output_filename 7 0 <> output_filename 8 0
  /\ output_filename 7 0 <> output_filename 7 1.
Proof.
  split.
  - apply (output_filename_unique 7 8 0 0). right. discriminate.
  - apply (output_filename_unique 7 7 0 1). left. discriminate.
Defined.

(** ** Floats: the shape of a rounded value *)

#[local] Open Scope Z_scope.

Section Rounding.
Let prec := Float.prec.
Let emax := Float.emax.

Lemma digits2_pos_bounds (m : positive) :
  2 ^ (Z.pos (digits2_pos m) - 1) <= Z.pos m < 2 ^ Z.pos (digits2_pos m).
Proof.
  induction m as [m IH | m IH |]; cbn [digits2_pos].
  - rewrite Pos2Z.inj_succ.
    replace (Z.succ (Z.pos (digits2_pos m)) - 1) with (Z.succ (Z.pos (digits2_pos m) - 1)) by lia.
    rewrite !Z.pow_succ_r by lia. lia.
  - rewrite Pos2Z.inj_succ.
    replace (Z.succ (Z.pos (digits2_pos m)) - 1) with (Z.succ (Z.pos (digits2_pos m) - 1)) by lia.
    rewrite !Z.pow_succ_r by lia. lia.
  - cbn. lia.
Qed.

Lemma shr_1_m (mrs : shr_record) :
  0 <= shr_m mrs -> shr_m (shr_1 mrs) = shr_m mrs / 2.
Proof.
  destruct mrs as [m r s]. cbn [shr_m]. intros Hm.
  destruct m as [| [p | p |] | p]; cbn [shr_1 shr_m]; try lia.
  - reflexivity.
  - rewrite Pos2Z.inj_xI. apply Z.div_unique with 1; lia.
  - rewrite Pos2Z.inj_xO. apply Z.div_unique with 0; lia.
  - reflexivity.
Qed.

Lemma iter_shr_1_m (p : positive) (mrs : shr_record) :
  0 <= shr_m mrs -> shr_m (SpecFloat.iter_pos shr_1 p mrs) = shr_m mrs / 2 ^ Z.pos p.
Proof.
  revert mrs. induction p as [p IH | p IH |]; intros mrs Hm; cbn [SpecFloat.iter_pos].
  - assert (H1 : 0 <= shr_m (shr_1 mrs)) by (rewrite shr_1_m by lia; apply Z.div_pos; lia).
    assert (H2 : 0 <= shr_m (SpecFloat.iter_pos shr_1 p (shr_1 mrs)))
      by (rewrite IH by lia; apply Z.div_pos; lia).
    rewrite IH, IH, shr_1_m by lia.
    rewrite !Z.div_div by lia. f_equal.
    replace (Z.pos p~1) with (Z.pos p + Z.pos p + 1) by lia.
    rewrite !Z.pow_add_r by lia. ring.
  - assert (H2 : 0 <= shr_m (SpecFloat.iter_pos shr_1 p mrs))
      by (rewrite IH by lia; apply Z.div_pos; lia).
    rewrite IH, IH by lia. rewrite Z.div_div by lia. f_equal.
    replace (Z.pos p~0) with (Z.pos p + Z.pos p) by lia.
    rewrite !Z.pow_add_r by lia. ring.
  - rewrite shr_1_m by lia. reflexivity.
Qed.

Lemma shr_fexp_m (m e : Z) (l : location) :
  0 <= m ->
  let k := fexp prec emax (Zdigits2 m + e) - e in
  shr_fexp prec emax m e l
  = (fst (shr_fexp prec emax m e l), if 0 <? k then e + k else e)
  /\ shr_m (fst (shr_fexp prec emax m e l)) = (if 0 <? k then m / 2 ^ k else m).
Proof.
  intros Hm k. unfold shr_fexp. fold k.
  assert (Hrec : shr_m (shr_record_of_loc m l) = m)
    by (destruct l as [| []]; reflexivity).
  destruct k as [| p | p]; cbn [shr Z.ltb Z.compare fst].
  - split; [ reflexivity | exact Hrec ].
  - split; [ reflexivity |]. rewrite iter_shr_1_m by lia. rewrite Hrec. reflexivity.
  - split; [ reflexivity | exact Hrec ].
Qed.

Lemma shifted_nonneg (b : bool) (m k : Z) :
  0 <= m -> 0 <= (if b then m / 2 ^ k else m).
Proof.
  intros Hm. destruct b; [| exact Hm ].
  apply Z_div_nonneg_nonneg; [ lia | apply Z.pow_nonneg; lia ].
Qed.

Lemma round_nearest_even_ge (m : Z) (l : location) :
  m <= round_nearest_even m l <= m + 1.
Proof.
  destruct l as [| []]; cbn [round_nearest_even]; try lia.
  destruct (Z.even m); lia.
Qed.

(** A rounded value is a zero, a number or an infinity of the sign
    asked for: never a NaN. *)
Lemma round_aux_shape (sx : bool) (mx ex : Z) (lx : location) :
  0 <= mx ->
  binary_round_aux prec emax sx mx ex lx = S754_zero sx
  \/ (exists m e, binary_round_aux prec emax sx mx ex lx = S754_finite sx m e)
  \/ binary_round_aux prec emax sx mx ex lx = S754_infinity sx.
Proof.
  intros Hm. unfold binary_round_aux.
  destruct (shr_fexp_m mx ex lx Hm) as [E1 M1].
  destruct (shr_fexp prec emax mx ex lx) as [mrs1 e1]. cbn [fst] in M1.
  set (m1 := round_nearest_even (shr_m mrs1) (loc_of_shr_record mrs1)).
  assert (Hm1 : 0 <= m1).
  { pose proof (round_nearest_even_ge (shr_m mrs1) (loc_of_shr_record mrs1)).
    assert (0 <= shr_m mrs1); [| unfold m1; lia ].
    rewrite M1. apply shifted_nonneg, Hm. }
  destruct (shr_fexp_m m1 e1 loc_Exact Hm1) as [E2 M2].
  destruct (shr_fexp prec emax m1 e1 loc_Exact) as [mrs2 e2]. cbn [fst] in M2.
  assert (Hm2 : 0 <= shr_m mrs2).
  { rewrite M2. apply shifted_nonneg, Hm1. }
  destruct (shr_m mrs2) as [| p | p]; [ auto | | lia ].
  destruct (e2 <=? emax - prec); eauto.
Qed.

Lemma Zdigits2_bounds (m : Z) :
  0 < m -> 2 ^ (Zdigits2 m - 1) <= m < 2 ^ Zdigits2 m.
Proof.
  destruct m as [| p | p]; try lia. intros _. apply digits2_pos_bounds.
Qed.

Lemma Zdigits2_pos (m : Z) : 0 < m -> 0 < Zdigits2 m.
Proof. destruct m; cbn; lia. Qed.

Lemma Zdigits2_lower (m d : Z) : 0 < m -> 2 ^ (d - 1) <= m -> d <= Zdigits2 m.
Proof.
  intros Hm Hd. pose proof (Zdigits2_bounds m Hm) as [_ Hhi].
  pose proof (Zdigits2_pos m Hm).
  destruct (Z_le_gt_dec d (Zdigits2 m)) as [| Hgt]; [ assumption | exfalso ].
  assert (2 ^ Zdigits2 m <= 2 ^ (d - 1)) by (apply Z.pow_le_mono_r; lia).
  lia.
Qed.

(** Shifting to the canonical exponent keeps a number that is not below
    the least subnormal away from zero. *)
Lemma shr_fexp_positive (m e : Z) (l : location) :
  0 < m -> emin prec emax < Zdigits2 m + e ->
  let '(mrs, e') := shr_fexp prec emax m e l in
  0 < shr_m mrs /\ Zdigits2 m + e <= Zdigits2 (shr_m mrs) + e'.
Proof.
  intros Hm Hd.
  assert (Hm0 : 0 <= m) by lia.
  destruct (shr_fexp_m m e l Hm0) as [E M].
  destruct (shr_fexp prec emax m e l) as [mrs e']. cbn [fst] in E, M.
  injection E as E. rewrite M, E. clear M E.
  pose proof (Zdigits2_bounds m Hm) as [Hlo Hhi].
  pose proof (Zdigits2_pos m Hm) as Hpos.
  set (k := fexp prec emax (Zdigits2 m + e) - e).
  assert (Hk : k <= Zdigits2 m - 1).
  { unfold k, fexp, emin, prec, emax, Float.prec, Float.emax in *. lia. }
  destruct (Z.ltb_spec 0 k) as [Hk0 | Hk0]; [| split; lia ].
  assert (Hpow : 0 < 2 ^ k) by (apply Z.pow_pos_nonneg; lia).
  assert (Hq : 2 ^ (Zdigits2 m - 1 - k) <= m / 2 ^ k).
  { apply Z.div_le_lower_bound; [ exact Hpow |].
    rewrite <- Z.pow_add_r by lia.
    replace (k + (Zdigits2 m - 1 - k)) with (Zdigits2 m - 1) by lia. exact Hlo. }
  assert (Hq0 : 0 < m / 2 ^ k).
  { assert (0 < 2 ^ (Zdigits2 m - 1 - k)) by (apply Z.pow_pos_nonneg; lia). lia. }
  split; [ exact Hq0 |].
  pose proof (Zdigits2_lower (m / 2 ^ k) (Zdigits2 m - k) Hq0) as Hd'.
  replace (Zdigits2 m - k - 1) with (Zdigits2 m - 1 - k) in Hd' by lia.
  specialize (Hd' Hq). lia.
Qed.

(** A number that is not below the least subnormal does not round to
    zero. *)
Lemma round_aux_nonzero (sx : bool) (mx ex : Z) (lx : location) :
  0 < mx -> emin prec emax < Zdigits2 mx + ex ->
  (exists m e, binary_round_aux prec emax sx mx ex lx = S754_finite sx m e)
  \/ binary_round_aux prec emax sx mx ex lx = S754_infinity sx.
Proof.
  intros Hm Hd. unfold binary_round_aux.
  pose proof (shr_fexp_positive mx ex lx Hm Hd) as H1.
  destruct (shr_fexp prec emax mx ex lx) as [mrs1 e1]. destruct H1 as [P1 D1].
  set (m1 := round_nearest_even (shr_m mrs1) (loc_of_shr_record mrs1)).
  pose proof (round_nearest_even_ge (shr_m mrs1) (loc_of_shr_record mrs1)) as Hr.
  fold m1 in Hr.
  assert (Hm1 : 0 < m1) by lia.
  assert (Hd1 : emin prec emax < Zdigits2 m1 + e1).
  { pose proof (Zdigits2_bounds (shr_m mrs1) P1) as [Hlo _].
    pose proof (Zdigits2_lower m1 (Zdigits2 (shr_m mrs1)) Hm1). lia. }
  pose proof (shr_fexp_positive m1 e1 loc_Exact Hm1 Hd1) as H2.
  destruct (shr_fexp prec emax m1 e1 loc_Exact) as [mrs2 e2]. destruct H2 as [P2 _].
  destruct (shr_m mrs2) as [| p | p]; try lia.
  destruct (e2 <=? emax - prec); eauto.
Qed.

Lemma digits2_shifted (m d : positive) :
  Z.pos (digits2_pos (Pos.iter xO m d)) = Z.pos (digits2_pos m) + Z.pos d.
Proof.
  induction d as [| d IH] using Pos.peano_ind.
  - cbn. lia.
  - rewrite Pos.iter_succ. cbn [digits2_pos]. lia.
Qed.

(** [float(n)]: zero for zero, otherwise a number of the sign of [n],
    unless it overflows. *)
Lemma of_int_shape (n : Z) (b : Float.float) :
  Float.of_int n = Ok b ->
  (n = 0 /\ b = S754_zero false)
  \/ (n <> 0 /\ exists m e, b = S754_finite (n <? 0) m e).
Proof.
  unfold Float.of_int, Float.round, binary_normalize.
  assert (Hround : forall sx p,
            (exists m e, binary_round prec emax sx p 0 = S754_finite sx m e)
            \/ binary_round prec emax sx p 0 = S754_infinity sx).
  { intros sx p. unfold binary_round.
    destruct (shl_align p 0 (fexp prec emax (Z.pos (digits2_pos p) + 0))) as [mz ez] eqn:E.
    apply round_aux_nonzero; [ lia |].
    unfold shl_align in E. cbn [Zdigits2].
    destruct (fexp prec emax (Z.pos (digits2_pos p) + 0) - 0) as [| d | d] eqn:Ed;
      injection E as <- <-.
    - unfold emin, prec, emax, Float.prec, Float.emax. lia.
    - unfold emin, prec, emax, Float.prec, Float.emax. lia.
    - rewrite digits2_shifted.
      unfold fexp, emin, prec, emax, Float.prec, Float.emax in *. lia. }
  unfold prec, emax in Hround.
  destruct n as [| p | p].
  - intros [= <-]. left. split; reflexivity.
  - destruct (Hround false p) as [(m & e & ->) | ->]; [| discriminate ].
    intros [= <-]. right. split; [ lia |]. exists m, e. reflexivity.
  - destruct (Hround true p) as [(m & e & ->) | ->]; [| discriminate ].
    intros [= <-]. right. split; [ lia |]. exists m, e. reflexivity.
Qed.

End Rounding.

Lemma SFdiv_shape (s1 : bool) (m1 : positive) (e1 : Z) (s2 : bool) (m2 : positive) (e2 : Z) :
  let q := SFdiv Float.prec Float.emax (S754_finite s1 m1 e1) (S754_finite s2 m2 e2) in
  q = S754_zero (xorb s1 s2)
  \/ (exists m e, q = S754_finite (xorb s1 s2) m e)
  \/ q = S754_infinity (xorb s1 s2).
Proof.
  cbn [SFdiv].
  destruct (SFdiv_core_binary Float.prec Float.emax (Z.pos m1) e1 (Z.pos m2) e2)
    as [[mz ez] lz] eqn:E.
  apply round_aux_shape.
  unfold SFdiv_core_binary in E.
  match type of E with
  | (let '(q, r) := Z.div_eucl ?a ?b in _) = _ =>
      assert (Ha : 0 <= a);
      [| pose proof (Z_div_mod a b ltac:(lia)) as Hdiv;
         destruct (Z.div_eucl a b) as [q r]; injection E as <- _ _ ]
  end.
  - match goal with
    | |- 0 <= match ?k with _ => _ end => destruct k
    end; [ lia | apply Z.shiftl_nonneg; lia | lia ].
  - destruct Hdiv as [Hq Hr]. nia.
Qed.

(** Line 94 raises for a zero length, for an overflow, and for a
    duration that is no number; for nothing else. *)
Lemma clip_count_raises (total : Float.float) (n : Z) (e : exn) :
  clip_count total n = Raise e ->
  (e = ZeroDivisionError /\ n = 0)
  \/ e = OverflowError
  \/ (e = ValueError /\ total = S754_nan).
Proof.
  unfold clip_count, Float.truediv.
  destruct (Float.of_int n) as [b | e0] eqn:Eb.
  - destruct (of_int_shape n b Eb) as [[-> ->] | [Hn (m & e' & ->)]]; cbn [Float.is_zero].
    + intros [= <-]. auto.
    + destruct total as [s0 | s0 | | s0 m0 e0].
      * cbn. discriminate.
      * cbn. intros [= <-]. auto.
      * cbn. intros [= <-]. auto.
      * destruct (SFdiv_shape s0 m0 e0 (n <? 0) m e') as [-> | [(m1 & e1 & ->) | ->]].
        -- cbn. discriminate.
        -- cbn. destruct e1; discriminate.
        -- cbn. intros [= <-]. auto.
  - intros [= <-]. unfold Float.of_int in Eb.
    destruct (Float.round n 0); try discriminate Eb. injection Eb as <-. auto.
Qed.

Lemma clip_count_zero (total : Float.float) : clip_count total 0 = Raise ZeroDivisionError.
Proof. reflexivity. Qed.

(** Operands of opposite signs give a count that is not positive. *)
Lemma clip_count_nonpos (total : Float.float) (n k : Z) :
  (n < 0 /\ Float.nonneg total = true) \/ (0 < n /\ Float.nonpos total = true) ->
  clip_count total n = Ok k -> k <= 0.
Proof.
  intros Hsign. unfold clip_count, Float.truediv.
  destruct (Float.of_int n) as [b | e0] eqn:Eb; [| discriminate ].
  destruct (of_int_shape n b Eb) as [[-> ->] | [Hn (m & e' & ->)]]; [ lia |].
  cbn [Float.is_zero].
  destruct total as [s0 | s0 | | s0 m0 e0].
  - cbn. intros [= <-]. lia.
  - cbn. discriminate.
  - cbn. discriminate.
  - assert (Hs : xorb s0 (n <? 0) = true).
    { destruct Hsign as [[Hn' Ht] | [Hn' Ht]]; cbn in Ht.
      - destruct s0; [ discriminate |]. destruct (Z.ltb_spec n 0); [ reflexivity | lia ].
      - subst s0. destruct (Z.ltb_spec n 0); [ lia | reflexivity ]. }
    destruct (SFdiv_shape s0 m0 e0 (n <? 0) m e') as [-> | [(m1 & e1 & ->) | ->]];
      rewrite ?Hs.
    + cbn. intros [= <-]. lia.
    + cbn [Float.ceil]. destruct e1 as [| p | p]; intros [= <-].
      * lia.
      * assert (0 < 2 ^ Z.pos p) by (apply Z.pow_pos_nonneg; lia). nia.
      * assert (0 <= Z.pos m1 / 2 ^ Z.pos p)
          by (apply Z_div_nonneg_nonneg; [ lia | apply Z.pow_nonneg; lia ]).
        change (- Z.neg m1) with (Z.pos m1). lia.
    + cbn. discriminate.
Qed.



(** ** Rules for [post] *)

#[local] Open Scope list_scope.

Lemma post_intro {A} (m : M A) (s : state) (Q : result A -> state -> list event -> Prop) :
  (forall r s' ev, m s = (r, s', ev) -> Q r s' ev) -> post m s Q.
Proof. intros H. unfold post. destruct (m s) as [[r s'] ev] eqn:E. apply H. reflexivity. Qed.

Lemma post_elim {A} (m : M A) (s : state) (Q : result A -> state -> list event -> Prop)
    r s' ev :
  post m s Q -> m s = (r, s', ev) -> Q r s' ev.
Proof. unfold post. intros H E. rewrite E in H. exact H. Qed.

Lemma post_mono {A} (m : M A) (s : state) (Q Q' : result A -> state -> list event -> Prop) :
  post m s Q -> (forall r s' ev, Q r s' ev -> Q' r s' ev) -> post m s Q'.
Proof. unfold post. destruct (m s) as [[r s'] ev]. auto. Qed.

Lemma post_conj {A} (m : M A) (s : state) (Q1 Q2 : result A -> state -> list event -> Prop) :
  post m s Q1 -> post m s Q2 -> post m s (fun r s' ev => Q1 r s' ev /\ Q2 r s' ev).
Proof. unfold post. destruct (m s) as [[r s'] ev]. auto. Qed.

Lemma post_bind {A B} (m : M A) (k : A -> M B) (s : state)
    (Q : result B -> state -> list event -> Prop) :
  post m s (fun r s1 ev1 =>
              match r with
              | Ok a => post (k a) s1 (fun r' s2 ev2 => Q r' s2 (ev1 ++ ev2))
              | Raise e => Q (Raise e) s1 ev1
              end) ->
  post (bind m k) s Q.
Proof.
  unfold post, bind. destruct (m s) as [[[a | e] s1] ev1]; [| auto ].
  destruct (k a s1) as [[r' s2] ev2]. auto.
Qed.

Lemma post_try_except {A} (body : M A) (handler : exn -> M A) (s : state)
    (Q : result A -> state -> list event -> Prop) :
  post body s (fun r s1 ev1 =>
                 match r with
                 | Ok a => Q (Ok a) s1 ev1
                 | Raise e => post (handler e) s1 (fun r' s2 ev2 => Q r' s2 (ev1 ++ ev2))
                 end) ->
  post (try_except body handler) s Q.
Proof.
  unfold post, try_except. destruct (body s) as [[[a | e] s1] ev1]; [ auto |].
  destruct (handler e s1) as [[r' s2] ev2]. auto.
Qed.

Lemma post_try_finally {A} (body : M A) (final : M unit) (s : state)
    (Q : result A -> state -> list event -> Prop) :
  post body s (fun r s1 ev1 =>
                 post final s1 (fun rf s2 ev2 =>
                   Q (match rf with Ok _ => r | Raise e => Raise e end) s2 (ev1 ++ ev2))) ->
  post (try_finally body final) s Q.
Proof.
  unfold post, try_finally. destruct (body s) as [[r s1] ev1].
  destruct (final s1) as [[[u | e] s2] ev2]; auto.
Qed.

(** ** The run of the core, step by step *)

Lemma range_nonpos (n : Z) : n <= 0 -> range n = [].
Proof. intros H. unfold range. replace (Z.to_nat n) with 0%nat by lia. reflexivity. Qed.

Lemma range_pos (n : Z) : 0 < n -> exists l, range n = 0 :: l.
Proof.
  intros H. unfold range. destruct (Z.to_nat n) as [| k] eqn:E; [ lia |].
  cbn. eauto.
Qed.

Lemma elem_of_range (n i : Z) : i ∈ range n <-> 0 <= i < n.
Proof.
  unfold range. rewrite list_elem_of_fmap. split.
  - intros (k & -> & Hk). apply elem_of_seq in Hk. lia.
  - intros Hi. exists (Z.to_nat i). split; [ lia |]. apply elem_of_seq. lia.
Qed.

Lemma written_is_Some (p : string) (files : gmap string node) :
  is_Some (written p files !! p).
Proof.
  unfold written. destruct (files !! p) eqn:E.
  - rewrite E. eauto.
  - rewrite lookup_insert_eq. eauto.
Qed.

Lemma written_unprotected (p q : string) (files : gmap string node) :
  files !! q <> Some Protected -> written p files !! q <> Some Protected.
Proof.
  unfold written. intros H. destruct (files !! p) eqn:E; [ exact H |].
  destruct (decide (p = q)) as [-> | Hne].
  - rewrite lookup_insert_eq. discriminate.
  - rewrite lookup_insert_ne by exact Hne. exact H.
Qed.

Section Run.
Variable env : environment.
Variable ctx : context.

(** ffmpeg-python has no [scale] method: a turn of the loop ends at line
    107, or before it when the progress reply cannot be sent. *)
Lemma process_clip_run (video_path : string) (clip_duration n i : Z) (s : state) :
  process_clip env ctx video_path clip_duration n i s
  = if reply_ok env (replies s)
    then (Raise (AttributeError "FilterableStream" "scale"), replied (user_data s) s,
          [EReply (MsgProcessing (part_num i) n) true;
           EInput (input_stream video_path clip_duration i)])
    else (Raise TelegramError, replied (user_data s) s,
          [EReply (MsgProcessing (part_num i) n) false]).
Proof.
  unfold process_clip, bind, reply_text.
  destruct (reply_ok env (replies s)); reflexivity.
Qed.

Lemma loop_run (video_path : string) (clip_duration n : Z) (s : state) :
  for_each (range n) (process_clip env ctx video_path clip_duration n) s
  = if n <=? 0 then (Ok tt, s, [])
    else process_clip env ctx video_path clip_duration n 0 s.
Proof.
  destruct (Z.leb_spec n 0) as [Hn | Hn].
  - rewrite range_nonpos by exact Hn. reflexivity.
  - destruct (range_pos n Hn) as [l ->]. cbn [for_each]. unfold bind.
    rewrite process_clip_run. destruct (reply_ok env (replies s)); reflexivity.
Qed.

(** The [try] block, path by path. *)
Lemma process_video_run (video_path : string) (clip_duration : Z) (s : state) :
  ud_video_path (user_data s) = Some video_path ->
  ud_duration (user_data s) = Some clip_duration ->
  process_video env ctx s
  = match probe env video_path with
    | Raise e => (Raise e, s, [EProbe video_path false])
    | Ok total =>
        match clip_count total clip_duration with
        | Raise e => (Raise e, s, [EProbe video_path true])
        | Ok n =>
            let s1 := replied (user_data s) s in
            let s2 := replied (user_data s) s1 in
            let detected := EReply (MsgDetected total n) (reply_ok env (replies s)) in
            if negb (reply_ok env (replies s))
            then (Raise TelegramError, s1, [EProbe video_path true; detected])
            else if n <=? 0
            then (if reply_ok env (S (replies s)) then Ok tt else Raise TelegramError,
                  s2,
                  [EProbe video_path true; detected;
                   EReply MsgAllDone (reply_ok env (S (replies s)))])
            else if reply_ok env (S (replies s))
            then (Raise (AttributeError "FilterableStream" "scale"), s2,
                  [EProbe video_path true; detected;
                   EReply (MsgProcessing 1 n) true;
                   EInput (input_stream video_path clip_duration 0)])
            else (Raise TelegramError, s2,
                  [EProbe video_path true; detected;
                   EReply (MsgProcessing 1 n) false])
        end
    end.
Proof.
  intros Hvp Hcd. unfold process_video, bind at 1, get_item. rewrite Hvp.
  unfold bind at 1. rewrite Hcd.
  unfold bind at 1, ffmpeg_probe.
  destruct (probe env video_path) as [total | e]; [| reflexivity ].
  unfold bind at 1, num_clips, bind at 1, lift, clip_count.
  destruct (Float.truediv total clip_duration) as [q | e]; [| reflexivity ].
  destruct (Float.ceil q) as [n | e]; [| reflexivity ].
  unfold bind at 1, reply_text at 1.
  destruct (reply_ok env (replies s)) eqn:R1; [| reflexivity ].
  cbn [negb]. unfold bind at 1. rewrite loop_run.
  destruct (n <=? 0).
  - unfold reply_text. cbn [replies user_data fs]. rewrite ?app_nil_r.
    destruct (reply_ok env (S (replies s))); reflexivity.
  - rewrite process_clip_run. cbn [replies].
    destruct (reply_ok env (S (replies s))); reflexivity.
Qed.

(** The [try] block when a key is missing. *)
Lemma process_video_no_path (s : state) :
  ud_video_path (user_data s) = None ->
  process_video env ctx s = (Raise (KeyError "video_path"), s, []).
Proof. intros H. unfold process_video, bind, get_item. rewrite H. reflexivity. Qed.

Lemma process_video_no_duration (video_path : string) (s : state) :
  ud_video_path (user_data s) = Some video_path ->
  ud_duration (user_data s) = None ->
  process_video env ctx s = (Raise (KeyError "duration"), s, []).
Proof.
  intros H1 H2. unfold process_video, bind, get_item. rewrite H1, H2. reflexivity.
Qed.

Lemma report_error_run (e : exn) (s : state) :
  report_error env e s
  = (if reply_ok env (replies s) then Ok tt else Raise TelegramError,
     replied (user_data s) s,
     [ELogError e; EReply (MsgError e) (reply_ok env (replies s))]).
Proof. reflexivity. Qed.

(** The [finally] block. *)
Lemma cleanup_run (video_path : string) (s : state) :
  ud_video_path (user_data s) = Some video_path ->
  cleanup s
  = match fs s !! video_path with
    | None => (Ok tt, s, [EExists video_path false])
    | Some Regular =>
        (Ok tt, {| user_data := user_data s; fs := delete video_path (fs s);
                   replies := replies s |},
         [EExists video_path true; ERemove video_path true])
    | Some Protected =>
        (Raise (PermissionError video_path), s,
         [EExists video_path true; ERemove video_path false])
    end.
Proof.
  intros H. unfold cleanup, bind, get_item, os_path_exists, os_remove, ret.
  rewrite H. destruct (fs s !! video_path) as [[|] |] eqn:E; cbn; rewrite ?E; reflexivity.
Qed.

End Run.

(** ** The core, path by path *)

Ltac destruct_replies env :=
  repeat match goal with
         | |- context [reply_ok env ?k] => destruct (reply_ok env k) eqn:?
         end.

(** The [except] and [finally] blocks, once the [try] block is unfolded. *)
Ltac core_tail env video_path Hvp :=
  rewrite ?report_error_run; cbn [replies replied user_data];
  destruct_replies env;
  rewrite (cleanup_run video_path) by exact Hvp;
  cbn [fs replied];
  let Hfs := fresh "Hfs" in
  match goal with
  | |- context [@lookup _ _ _ _ video_path ?files] =>
      destruct (files !! video_path) as [[|] |] eqn:Hfs
  end;
  cbv beta iota zeta.

(** Splits a goal [post (core_processing env ctx) s Q] into the paths of
    the [try] block, the [except] block and the [finally] block, for a
    job with a video and a clip length. *)
Ltac core_paths_known env ctx s video_path cd Hvp Hcd :=
  unfold post, core_processing, try_finally, try_except;
  rewrite (process_video_run env ctx video_path cd s Hvp Hcd);
  let total := fresh "total" in
  let Hprobe := fresh "Hprobe" in
  destruct (probe env video_path) as [total | ?e] eqn:Hprobe;
  [ let n := fresh "n" in
    let Hcount := fresh "Hcount" in
    destruct (clip_count total cd) as [n | ?e] eqn:Hcount;
    [ cbv zeta;
      destruct (reply_ok env (replies s)) eqn:?; cbn [negb];
      [ let Hn := fresh "Hn" in
        destruct (Z.leb_spec n 0) as [Hn | Hn];
        destruct (reply_ok env (S (replies s))) eqn:?
      | ]
    | ]
  | ];
  core_tail env video_path Hvp.

(** The same for a job that may lack its clip length. *)
Ltac core_paths env ctx s video_path Hvp :=
  let cd := fresh "clip_duration" in
  let Hcd := fresh "Hcd" in
  destruct (ud_duration (user_data s)) as [cd |] eqn:Hcd;
  [ core_paths_known env ctx s video_path cd Hvp Hcd
  | unfold post, core_processing, try_finally, try_except;
    rewrite (process_video_no_duration env ctx video_path s Hvp Hcd);
    core_tail env video_path Hvp ].

Section Contained.
Variable env : environment.
Variable ctx : context.
Hypothesis replies_arrive : forall k, reply_ok env k = true.

(** Whatever the probe and the planning do, as long as the text replies
    go through and the uploaded file can be unlinked, the last handler
    returns [END] and the uploaded file is gone: no failure of the
    processing leaves the handler. *)
Theorem processing_errors_are_contained (text video_path : string) (s : state) :
  ud_video_path (user_data s) = Some video_path ->
  fs s !! video_path <> Some Protected ->
  post (get_color_and_process env ctx text) s (fun r s' ev =>
    r = Ok END /\ fs s' !! video_path = None).
Proof.
  intros Hvp Hfs. unfold get_color_and_process.
  apply post_bind. unfold post at 1, set_user_data.
  apply post_bind. unfold post at 1, reply_text. rewrite replies_arrive.
  apply post_bind.
  match goal with
  | |- post _ ?s1 _ =>
      assert (Hvp1 : ud_video_path (user_data s1) = Some video_path) by exact Hvp;
      core_paths env ctx s1 video_path Hvp1
  end.
  all: try contradiction.
  all: rewrite ?replies_arrive in *; try discriminate.
  all: unfold post, ret; split; [ reflexivity |]; cbn [fs];
    first [ apply lookup_delete_eq | assumption ].
Qed.

End Contained.

(** ** Composition: the text layers *)

Section Layers.
Variables (video_path title channel color : string).
Variables (clip_duration user_id : Z).

Lemma layers_output (video_clip : Stream) (i : Z) :
  layers (out_video (output video_path title channel color clip_duration user_id
                       video_clip i))
  = [title_layer title; channel_layer channel; part_layer i].
Proof. reflexivity. Qed.

(** C8. On the 1080x1920 canvas, for a title measured [w] by [h], the
    first text layer of every composition, whatever the scaled source
    laid over the canvas, is the title, drawn with its top-left corner
    at [((1080 - w)/2, (1920 - h)/2 - 700)], in size 70, in black,
    without a box. *)
Theorem C8_title_layer (video_clip : Stream) (i : Z) (w h : Q) :
  exists a,
    layers (out_video (output video_path title channel color clip_duration user_id
                         video_clip i))
      !! 0%nat = Some a
    /\ in_filename
         <$> inputs (out_video
                       (output video_path title channel color clip_duration user_id
                          video_clip i))
               !! 0%nat
       = Some ("color=c=" ++ color ++ ":s=1080x1920")%string
    /\ text a = title
    /\ Expr.eval_string (Expr.drawtext_env 1080 1920 w h) (x a)
       = Some ((1080 - w) / 2)%Q
    /\ Expr.eval_string (Expr.drawtext_env 1080 1920 w h) (y a)
       = Some ((1920 - h) / 2 - 700)%Q
    /\ fontsize a = 70
    /\ fontcolor a = "black"
    /\ box a = None /\ boxcolor a = None /\ boxborderw a = None.
Proof.
  exists (title_layer title). rewrite layers_output.
  repeat split; reflexivity.
Qed.

(** C9. The last text layer of the composition for loop index [i]
    (zero-based) reads ["PART <n>"] with [n = i + 1], the 1-based number
    of the clip.  It is centred horizontally, 700 units below the
    centre, in size 60, in black, without a box. *)
Theorem C9_part_layer (video_clip : Stream) (i : Z) (w h : Q) :
  exists a,
    layers (out_video (output video_path title channel color clip_duration user_id
                         video_clip i))
      !! 2%nat = Some a
    /\ text a = ("PART " ++ Py.str (i + 1))%string
    /\ Expr.eval_string (Expr.drawtext_env 1080 1920 w h) (x a)
       = Some ((1080 - w) / 2)%Q
    /\ Expr.eval_string (Expr.drawtext_env 1080 1920 w h) (y a)
       = Some ((1920 - h) / 2 + 700)%Q
    /\ fontsize a = 60
    /\ fontcolor a = "black"
    /\ box a = None /\ boxcolor a = None /\ boxborderw a = None.
Proof.
  exists (part_layer i). rewrite layers_output.
  repeat split; reflexivity.
Qed.

End Layers.

(** ** The plan and the run *)

Lemma num_clips_run (total : Float.float) (clip_duration : Z) (s : state) :
  num_clips total clip_duration s = (clip_count total clip_duration, s, []).
Proof.
  unfold num_clips, clip_count, bind, lift.
  destruct (Float.truediv total clip_duration) as [q | e]; [| reflexivity ].
  destruct (Float.ceil q); reflexivity.
Qed.


(** C2, as stated, fails: for a 30 s source and a requested length of 60
    the one window the run requests is [(0, 60)], where the
    specification's [min(requestedLength, totalDuration - start)] is
    30. *)
Lemma C2_counterexample :
  match Float.to_Q (Sample.seconds 30) with
  | Some total =>
      (total == 30)%Q /\ (spec_length total 60 0 == 30)%Q
      /\ (spec_length total 60 0 < inject_Z 60)%Q
  | None => False
  end
  /\ match core_processing (Sample.fair (Sample.seconds 30)) Sample.ctx
             (Sample.ready 60) with
     | (r, s', ev) => omap window (requested ev) = [(0, 60)]
     end.
Proof. split; [ vm_compute; repeat split; reflexivity | reflexivity ]. Qed.

Lemma windows_requested (video_path : string) (clip_duration : Z) (l : list Z) :
  omap window (map (input_stream video_path clip_duration) l)
  = map (fun i => (i * clip_duration, clip_duration)) l.
Proof.
  induction l as [| i l IH]; [ reflexivity |].
  cbn [map]. rewrite <- IH. reflexivity.
Qed.

Section Windows.
Variable env : environment.
Variable ctx : context.
Variable video_path : string.
Variable clip_duration : Z.

(** C2, amended. The windows a run requests are the first ones of the
    sequence [(0, requested)], [(requested, requested)],
    [(2 * requested, requested)], ..., in this order and with none left
    out: window [i] starts at [i * requested] and is requested with the
    full length [requested], never with the remaining duration; no more
    windows are requested than were planned. *)
Theorem C2_windows_full_length (s : state) :
  ud_video_path (user_data s) = Some video_path ->
  ud_duration (user_data s) = Some clip_duration ->
  post (core_processing env ctx) s (fun r s' ev =>
    exists k : nat,
      requested ev = map (input_stream video_path clip_duration) (range (Z.of_nat k))
      /\ omap window (requested ev)
         = map (fun i => (i * clip_duration, clip_duration)) (range (Z.of_nat k))
      /\ (forall i start length,
            omap window (requested ev) !! i = Some (start, length) ->
            start = Z.of_nat i * clip_duration /\ length = clip_duration)
      /\ (forall total n,
            probe env video_path = Ok total ->
            clip_count total clip_duration = Ok n ->
            Z.of_nat k <= Z.max 0 n)).
Proof.
  intros Hvp Hcd.
  assert (Hshape : forall ev k,
            requested ev = map (input_stream video_path clip_duration)
                             (range (Z.of_nat k)) ->
            (forall total n,
                probe env video_path = Ok total ->
                clip_count total clip_duration = Ok n ->
                Z.of_nat k <= Z.max 0 n) ->
            exists k : nat,
              requested ev = map (input_stream video_path clip_duration)
                               (range (Z.of_nat k))
              /\ omap window (requested ev)
                 = map (fun i => (i * clip_duration, clip_duration)) (range (Z.of_nat k))
              /\ (forall i start length,
                    omap window (requested ev) !! i = Some (start, length) ->
                    start = Z.of_nat i * clip_duration /\ length = clip_duration)
              /\ (forall total n,
                    probe env video_path = Ok total ->
                    clip_count total clip_duration = Ok n ->
                    Z.of_nat k <= Z.max 0 n)).
  { intros ev k Hreq Hk. exists k. split; [ exact Hreq |].
    assert (Hw : omap window (requested ev)
                 = map (fun i => (i * clip_duration, clip_duration))
                     (range (Z.of_nat k)))
      by (rewrite Hreq; apply windows_requested).
    split; [ exact Hw |]. split; [| exact Hk ].
    intros i start length Hi. rewrite Hw in Hi. unfold range in Hi.
    rewrite map_map, list_lookup_fmap in Hi.
    destruct (seq 0 (Z.to_nat (Z.of_nat k)) !! i) as [j |] eqn:Ej; [| discriminate ].
    apply lookup_seq in Ej as [-> _]. cbn in Hi. injection Hi as <- <-. auto. }
  core_paths_known env ctx s video_path clip_duration Hvp Hcd.
  all: first
    [ apply (Hshape _ 1%nat);
      [ reflexivity
      | intros total' n' Hp' Hc'; rewrite Hp' in *;
        match goal with H : Ok _ = Ok _ |- _ => injection H as <- end;
        rewrite Hc' in *;
        match goal with H : Ok _ = Ok _ |- _ => injection H as <- end; lia ]
    | apply (Hshape _ 0%nat); [ reflexivity | intros; lia ] ].
Qed.

End Windows.

Section Planning.
Variable env : environment.
Variable ctx : context.
Variable video_path : string.
Variable clip_duration : Z.


End Planning.


(** 125 s cut by 60: whatever is requested has the full length. *)
Lemma C2_witness :
  post (core_processing (Sample.fair (Sample.seconds 125)) Sample.ctx) (Sample.ready 60)
    (fun r s' ev =>
       forall i start length,
         omap window (requested ev) !! i = Some (start, length) ->
         start = Z.of_nat i * 60 /\ length = 60).
Proof.
  eapply post_mono.
  - apply (C2_windows_full_length (Sample.fair (Sample.seconds 125)) Sample.ctx
             "v.mp4" 60 (Sample.ready 60)); reflexivity.
  - intros r s' ev (k & _ & _ & H & _). exact H.
Defined.

(** ** Order, abort and clean-up *)

(** C3, as stated, fails: on a source file that cannot be unlinked the
    first window fails, one error is reported, and the source file is not
    removed: [os.remove] raises in the [finally] block and the
    [PermissionError] leaves the handler. *)
Lemma C3_counterexample :
  match core_processing (Sample.fair (Sample.seconds 125)) Sample.ctx
          (Sample.locked 60) with
  | (r, s', ev) =>
      omap window (requested ev) = [(0, 60)]
      /\ error_reports ev = [AttributeError "FilterableStream" "scale"]
      /\ r = Raise (PermissionError "v.mp4")
      /\ fs s' !! "v.mp4" = Some Protected
  end.
Proof. vm_compute. repeat split; reflexivity. Qed.

(** Links the number of windows of a run to the planned count. *)
Ltac count_link env video_path :=
  let total' := fresh "total" in
  let n' := fresh "n" in
  let Hp := fresh "Hp" in
  let Hc := fresh "Hc" in
  let Hdone := fresh "Hdone" in
  intros total' n' Hp Hc;
  first
    [ congruence
    | match goal with
      | H1 : probe env video_path = Ok ?t, H2 : clip_count ?t _ = Ok ?n |- _ =>
          assert (n' = n) by congruence; subst n'
      end;
      split;
      [ lia
      | intros Hdone; first [ lia | exfalso; apply Hdone; reflexivity ] ] ].

Section Pipeline.
Variable env : environment.
Variable ctx : context.
Variable video_path : string.
Variable clip_duration : Z.

(** C3, amended. In every run the windows are taken up in index order
    and the clips delivered in index order: [k] windows were requested
    and [d] clips delivered, each an initial segment of the plan, with
    [d <= k <= d + 1] and [k] at most the planned count; when the last
    window taken up was not delivered, it failed, exactly one error was
    reported and nothing followed it (no later window, no all-done
    message); when the all-done message was sent, every planned clip had
    been delivered.  At most one error is reported in any run.  The
    source file is gone afterwards unless it is one [os.remove] cannot
    unlink. *)
Theorem C3_ordered_delivery_and_abort (s : state) :
  ud_video_path (user_data s) = Some video_path ->
  ud_duration (user_data s) = Some clip_duration ->
  post (core_processing env ctx) s (fun r s' ev =>
    (exists k d : nat,
        requested ev = map (input_stream video_path clip_duration) (range (Z.of_nat k))
        /\ sent ev = map (output_filename (_user_id ctx)) (range (Z.of_nat d))
        /\ (d <= k <= S d)%nat
        /\ (k = S d -> (exists e, error_reports ev = [e]) /\ all_done ev = [])
        /\ (forall total n,
              probe env video_path = Ok total ->
              clip_count total clip_duration = Ok n ->
              Z.of_nat k <= Z.max 0 n
              /\ (all_done ev <> [] -> Z.of_nat d = Z.max 0 n)))
    /\ (length (error_reports ev) <= 1)%nat
    /\ (fs s !! video_path <> Some Protected -> fs s' !! video_path = None)).
Proof.
  intros Hvp Hcd.
  core_paths_known env ctx s video_path clip_duration Hvp Hcd.
  all: split;
    [ first [ exists 1%nat, 0%nat; split; [ reflexivity |]; split; [ reflexivity |];
              split; [ lia |];
              split; [ intros _; split; [ eexists |]; reflexivity |]
            | exists 0%nat, 0%nat; split; [ reflexivity |]; split; [ reflexivity |];
              split; [ lia |]; split; [ intros [=] |] ];
      count_link env video_path
    | split; [ cbn; lia |];
      intros Hrem; cbn [fs];
      first [ apply lookup_delete_eq | assumption | contradiction ] ].
Qed.


Lemma cancel_run (s : state) :
  ud_video_path (user_data s) = Some video_path ->
  cancel env s
  = match fs s !! video_path with
    | None =>
        (if reply_ok env (replies s) then Ok END else Raise TelegramError,
         replied (user_data s) s,
         [ELogInfo; EExists video_path false;
          EReply MsgCancelled (reply_ok env (replies s))])
    | Some Regular =>
        (if reply_ok env (replies s) then Ok END else Raise TelegramError,
         {| user_data := user_data s; fs := delete video_path (fs s);
            replies := S (replies s) |},
         [ELogInfo; EExists video_path true; ERemove video_path true;
          EReply MsgCancelled (reply_ok env (replies s))])
    | Some Protected =>
        (Raise (PermissionError video_path), s,
         [ELogInfo; EExists video_path true; ERemove video_path false])
    end.
Proof.
  intros Hvp.
  unfold cancel, bind, logger_info, os_path_exists, os_remove, reply_text, ret.
  rewrite Hvp. cbn.
  destruct (fs s !! video_path) as [[|] |] eqn:E; cbn; rewrite ?E; cbn;
    try reflexivity;
    destruct (reply_ok env (replies s)); reflexivity.
Qed.

(** C5, amended. Once the all-set reply has gone through, whatever the
    outcome of the job, the clean-up runs exactly once, as the last
    action: one test of the uploaded file, followed by its removal when
    the file is there; the file is gone afterwards unless it is one
    [os.remove] cannot unlink.  When the all-set reply fails the handler
    raises before the [try] block: no clean-up runs and the file stays.
    Cancelling does the test and the removal once. *)
Theorem C5_cleanup_exactly_once (text : string) (s : state) :
  ud_video_path (user_data s) = Some video_path ->
  post (core_processing env ctx) s (fun r s' ev =>
    exists_checks ev = [video_path]
    /\ (exists before found ok,
          ev = before ++ EExists video_path found
                        :: (if found then [ERemove video_path ok] else [])
          /\ exists_checks before = [])
    /\ (fs s !! video_path <> Some Protected -> fs s' !! video_path = None))
  /\ post (get_color_and_process env ctx text) s (fun r s' ev =>
       if reply_ok env (replies s)
       then exists_checks ev = [video_path]
            /\ (fs s !! video_path <> Some Protected -> fs s' !! video_path = None)
       else exists_checks ev = [] /\ fs s' = fs s /\ r = Raise TelegramError)
  /\ post (cancel env) s (fun r s' ev =>
       exists_checks ev = [video_path]
       /\ (fs s !! video_path <> Some Protected -> fs s' !! video_path = None)).
Proof.
  intros Hvp.
  assert (Hcore : forall s0,
            ud_video_path (user_data s0) = Some video_path ->
            post (core_processing env ctx) s0 (fun r s' ev =>
              exists_checks ev = [video_path]
              /\ (exists before found ok,
                    ev = before ++ EExists video_path found
                                  :: (if found then [ERemove video_path ok] else [])
                    /\ exists_checks before = [])
              /\ (fs s0 !! video_path <> Some Protected -> fs s' !! video_path = None))).
  { intros s0 Hvp0. core_paths env ctx s0 video_path Hvp0.
    all: split; [ reflexivity |].
    all: split;
      [ match goal with
        | |- exists before found ok,
               ?l ++ [EExists _ ?f; ERemove _ ?o] = _ /\ _ =>
            exists l, f, o; split; reflexivity
        | |- exists before found ok, ?l ++ [EExists _ false] = _ /\ _ =>
            exists l, false, true; split; reflexivity
        end
      | intros Hrem; cbn [fs];
        first [ apply lookup_delete_eq | assumption | contradiction ] ]. }
  split; [ apply Hcore, Hvp |]. split.
  - unfold get_color_and_process.
    apply post_bind. unfold post at 1, set_user_data.
    apply post_bind. unfold post at 1, reply_text. cbn [replies].
    destruct (reply_ok env (replies s)); [| repeat split; reflexivity ].
    apply post_bind.
    eapply post_mono; [ apply Hcore; exact Hvp |].
    cbv beta. intros r s1 ev1 (Hchecks & _ & Hgone).
    destruct r as [[] | e]; [ unfold post, ret |];
      (split; [ unfold exists_checks in *; rewrite !omap_app, Hchecks; reflexivity
              | exact Hgone ]).
  - unfold post. rewrite (cancel_run s Hvp).
    destruct (fs s !! video_path) as [[|] |] eqn:E;
      (split; [ reflexivity |]); cbn [fs]; intros Hfs.
    + apply lookup_delete_eq.
    + congruence.
    + exact E.
Qed.

End Pipeline.

(** Three windows planned: the first fails, one error, the file removed. *)
Lemma C3_witness :
  post (core_processing (Sample.fair (Sample.seconds 125)) Sample.ctx) (Sample.ready 60)
    (fun r s' ev =>
       (length (error_reports ev) <= 1)%nat /\ fs s' !! "v.mp4" = None).
Proof.
  eapply post_mono.
  - apply (C3_ordered_delivery_and_abort (Sample.fair (Sample.seconds 125)) Sample.ctx
             "v.mp4" 60 (Sample.ready 60)); reflexivity.
  - intros r s' ev (_ & H & Hgone).
    split; [ exact H | apply Hgone; vm_compute; discriminate ].
Defined.

(** C5, as stated, fails twice over: a source file that cannot be
    unlinked is still there when the job ends, and when the all-set reply
    cannot be sent the handler raises before the [try] block, so that no
    clean-up runs at all. *)
Lemma C5_counterexample :
  match get_color_and_process (Sample.fair (Sample.seconds 125)) Sample.ctx "orange"
          (Sample.locked 60) with
  | (r, s', ev) =>
      exists_checks ev = ["v.mp4"] /\ fs s' !! "v.mp4" = Some Protected
  end
  /\ match get_color_and_process (Sample.muted 0 (Sample.seconds 125)) Sample.ctx "orange"
             (Sample.ready 60) with
     | (r, s', ev) =>
         r = Raise TelegramError /\ exists_checks ev = []
         /\ fs s' !! "v.mp4" = Some Regular
     end.
Proof. vm_compute. repeat split; reflexivity. Qed.

(** A job that fails in its first turn: one test, the file removed. *)
Lemma C5_witness :
  post (core_processing (Sample.fair (Sample.seconds 125)) Sample.ctx) (Sample.ready 60)
    (fun r s' ev => exists_checks ev = ["v.mp4"] /\ fs s' !! "v.mp4" = None).
Proof.
  destruct (C5_cleanup_exactly_once (Sample.fair (Sample.seconds 125)) Sample.ctx
              "v.mp4" "orange" (Sample.ready 60) eq_refl) as (H & _ & _).
  eapply post_mono; [ exact H |].
  intros r s' ev (H1 & _ & H3). split; [ exact H1 |].
  apply H3. vm_compute. discriminate.
Defined.

(** ** The checks on the clip length *)

Lemma get_duration_accepts env (text : string) (n : Z) (s : state) :
  Py.int (unicode env) text = Some n -> reply_ok env (replies s) = true ->
  get_duration env text s
  = (Ok GET_COLOR, replied (with_duration n (user_data s)) s, [EReply MsgAskColor true]).
Proof.
  intros Hint Hok. unfold get_duration. rewrite Hint.
  unfold bind, set_user_data, reply_text, ret. cbn. rewrite Hok. reflexivity.
Qed.

Lemma get_duration_reprompts env (text : string) (s : state) :
  Py.int (unicode env) text = None -> reply_ok env (replies s) = true ->
  get_duration env text s
  = (Ok GET_DURATION, replied (user_data s) s, [EReply MsgNotValidNumber true]).
Proof.
  intros Hint Hok. unfold get_duration. rewrite Hint.
  unfold bind, reply_text, ret. cbn. rewrite Hok. reflexivity.
Qed.


(** The planning of operands of opposite signs: a count that is not
    positive, or an [OverflowError]. *)
Lemma clip_count_opposite_signs (total : Float.float) (n : Z) :
  (n < 0 /\ Float.nonneg total = true) \/ (0 < n /\ Float.nonpos total = true) ->
  (exists k, clip_count total n = Ok k /\ k <= 0)
  \/ clip_count total n = Raise OverflowError.
Proof.
  intros Hsign. destruct (clip_count total n) as [k | e] eqn:E.
  - left. exists k. split; [ reflexivity |]. exact (clip_count_nonpos total n k Hsign E).
  - right. destruct (clip_count_raises total n e E) as [[_ ->] | [-> | [_ ->]]].
    + lia.
    + reflexivity.
    + destruct Hsign as [[_ H] | [_ H]]; discriminate H.
Qed.

(** C6, as stated, fails: a negative clip length and a zero total duration
    are planned without any failure (zero clips), and the duration prompt
    accepts ["-60"] and ["0"] instead of asking again. *)
Lemma C6_counterexample :
  num_clips (Sample.seconds 125) (-60) (Sample.ready (-60))
  = (Ok (-2), Sample.ready (-60), [])
  /\ num_clips (Sample.seconds 0) 60 (Sample.ready 60) = (Ok 0, Sample.ready 60, [])
  /\ get_duration (Sample.fair (Sample.seconds 125)) "-60" (Sample.ready 1)
     = (Ok GET_COLOR, replied (Sample.job (-60)) (Sample.ready 1), [EReply MsgAskColor true])
  /\ get_duration (Sample.fair (Sample.seconds 125)) "0" (Sample.ready 1)
     = (Ok GET_COLOR, replied (Sample.job 0) (Sample.ready 1), [EReply MsgAskColor true]).
Proof. vm_compute. repeat split; reflexivity. Qed.

(** C6, amended. The planning step fails on a requested length of zero (a
    [ZeroDivisionError]) and otherwise only where the float arithmetic of
    the division fails ([OverflowError], or [ValueError] for a duration
    that is not a number), never on a sign: with a negative length and a
    duration that is not negative, or a positive length and a duration
    that is not positive, a count that comes back is not positive and the
    loop is empty.  The duration prompt checks that [int()] reads the text
    and nothing more: every integer read, positive or not, is stored and
    the conversation moves on; text that [int()] rejects is answered with
    the not-a-valid-number message and the prompt stays in
    [GET_DURATION], leaving [user_data] as it was. *)
Theorem C6_only_parse_is_checked env (s : state) :
  reply_ok env (replies s) = true ->
  (forall total, num_clips total 0 s = (Raise ZeroDivisionError, s, []))
  /\ (forall total n e,
        num_clips total n s = (Raise e, s, []) ->
        (e = ZeroDivisionError /\ n = 0)
        \/ e = OverflowError
        \/ (e = ValueError /\ total = S754_nan))
  /\ (forall total n,
        (n < 0 /\ Float.nonneg total = true) \/ (0 < n /\ Float.nonpos total = true) ->
        (exists k, num_clips total n s = (Ok k, s, []) /\ k <= 0 /\ range k = [])
        \/ num_clips total n s = (Raise OverflowError, s, []))
  /\ (forall text n,
        Py.int (unicode env) text = Some n ->
        get_duration env text s
        = (Ok GET_COLOR, replied (with_duration n (user_data s)) s,
           [EReply MsgAskColor true]))
  /\ (forall text,
        Py.int (unicode env) text = None ->
        get_duration env text s
        = (Ok GET_DURATION, replied (user_data s) s, [EReply MsgNotValidNumber true])).
Proof.
  intros Hok. split; [| split; [| split; [| split ] ] ].
  - intros total. rewrite num_clips_run, clip_count_zero. reflexivity.
  - intros total n e. rewrite num_clips_run. intros [= H].
    exact (clip_count_raises total n e H).
  - intros total n Hsign. rewrite num_clips_run.
    destruct (clip_count_opposite_signs total n Hsign) as [(k & -> & Hk) | ->].
    + left. exists k. split; [ reflexivity |]. split; [ exact Hk |].
      apply range_nonpos, Hk.
    + right. reflexivity.
  - intros text n Hint. apply get_duration_accepts; assumption.
  - intros text Hint. apply get_duration_reprompts; assumption.
Qed.

(** ["-60"] is taken, ["a minute"] is asked again. *)
Lemma C6_witness :
  get_duration (Sample.fair (Sample.seconds 125)) "-60" (Sample.ready 1)
  = (Ok GET_COLOR, replied (with_duration (-60) (Sample.job 1)) (Sample.ready 1),
     [EReply MsgAskColor true])
  /\ get_duration (Sample.fair (Sample.seconds 125)) "a minute" (Sample.ready 1)
     = (Ok GET_DURATION, replied (Sample.job 1) (Sample.ready 1),
        [EReply MsgNotValidNumber true]).
Proof.
  destruct (C6_only_parse_is_checked (Sample.fair (Sample.seconds 125)) (Sample.ready 1))
    as (_ & _ & _ & H3 & H4); [ reflexivity |].
  split; [ apply H3 | apply H4 ]; reflexivity.
Defined.

(** ** Cleaning up the source file *)

(** C7, as stated, fails: when the source file cannot be unlinked, the
    [finally] block raises [PermissionError]; nothing catches or logs it,
    and it leaves the handler in place of the result. *)
Lemma C7_counterexample :
  cleanup (Sample.locked 60)
  = (Raise (PermissionError "v.mp4"), Sample.locked 60,
     [EExists "v.mp4" true; ERemove "v.mp4" false])
  /\ match get_color_and_process (Sample.fair (Sample.seconds 30)) Sample.ctx "orange"
             (Sample.locked (-60)) with
     | (r, s', ev) =>
         r = Raise (PermissionError "v.mp4")
         /\ logged_errors ev = [] /\ error_reports ev = []
         /\ fs s' !! "v.mp4" = Some Protected
     end.
Proof. split; [ reflexivity |]. vm_compute. repeat split; reflexivity. Qed.

(** C7, amended. Cleaning up when the source file does not exist succeeds
    and changes nothing; after a clean-up that removed the file, a second
    one succeeds too.  A file that exists and cannot be unlinked makes the
    clean-up raise: the failure is neither logged nor swallowed. *)
Theorem C7_cleanup_missing_file_ok (s : state) (video_path : string) :
  ud_video_path (user_data s) = Some video_path ->
  (fs s !! video_path = None -> cleanup s = (Ok tt, s, [EExists video_path false]))
  /\ (fs s !! video_path = Some Regular ->
      let s1 := {| user_data := user_data s; fs := delete video_path (fs s);
                   replies := replies s |} in
      cleanup s = (Ok tt, s1, [EExists video_path true; ERemove video_path true])
      /\ cleanup s1 = (Ok tt, s1, [EExists video_path false]))
  /\ (fs s !! video_path = Some Protected ->
      cleanup s = (Raise (PermissionError video_path), s,
                   [EExists video_path true; ERemove video_path false])).
Proof.
  intros Hvp.
  split; [| split ].
  - intros E. rewrite (cleanup_run video_path s Hvp), E. reflexivity.
  - intros E s1. split.
    + rewrite (cleanup_run video_path s Hvp), E. reflexivity.
    + rewrite (cleanup_run video_path s1 Hvp). cbn. rewrite lookup_delete_eq. reflexivity.
  - intros E. rewrite (cleanup_run video_path s Hvp), E. reflexivity.
Qed.

(** Cleaning up twice in a row. *)
Lemma C7_witness :
  let s1 := {| user_data := Sample.job 60; fs := ∅; replies := 0 |} in
  cleanup (Sample.ready 60) = (Ok tt, s1, [EExists "v.mp4" true; ERemove "v.mp4" true])
  /\ cleanup s1 = (Ok tt, s1, [EExists "v.mp4" false]).
Proof.
  destruct (C7_cleanup_missing_file_ok (Sample.ready 60) "v.mp4" eq_refl)
    as (_ & H & _).
  exact (H eq_refl).
Defined.

(** ** A negative clip length *)




(** ** Further properties of the run *)

(** A run on ffprobe's answer for a 125 s video. *)
Lemma processing_errors_are_contained_witness :
  post (get_color_and_process (Sample.fair (Sample.seconds 125)) Sample.ctx "orange")
    (Sample.ready 60)
    (fun r s' ev => r = Ok END /\ fs s' !! "v.mp4" = None).
Proof.
  apply (processing_errors_are_contained (Sample.fair (Sample.seconds 125)) Sample.ctx
           (fun _ => eq_refl) "orange" "v.mp4" (Sample.ready 60) eq_refl).
  vm_compute. discriminate.
Defined.

Section More.
Variable env : environment.
Variable ctx : context.
Variable video_path title channel color : string.
Variable clip_duration : Z.

(** If the all-done message went out, every planned clip was transcoded
    and delivered, in loop order, nothing failed and no error was
    reported; and the plan was empty: a job with a positive clip count
    does not get to the all-done message. *)
Theorem all_done_means_all_delivered (s : state) :
  prepared video_path title channel color clip_duration s ->
  post (core_processing env ctx) s (fun r s' ev =>
    all_done ev = [true] ->
    exists total n,
      probe env video_path = Ok total
      /\ clip_count total clip_duration = Ok n
      /\ n <= 0
      /\ (forall video_clips,
            runs ev
            = planned ctx video_path title channel color clip_duration video_clips n
            /\ sent ev
               = map out_filename
                   (planned ctx video_path title channel color clip_duration
                      video_clips n))
      /\ failed_runs ev = [] /\ failed_sends ev = []
      /\ error_reports ev = [] /\ logged_errors ev = []).
Proof.
  intros (Hvp & Hcd & _).
  core_paths_known env ctx s video_path clip_duration Hvp Hcd.
  all: intros Hdone; cbv in Hdone; try discriminate Hdone.
  all: do 2 eexists; split; [ reflexivity |]; split; [ eassumption |];
    split; [ assumption |];
    split; [ intros video_clips; unfold planned; rewrite range_nonpos by assumption;
             split; reflexivity |];
    repeat split; reflexivity.
Qed.

(** When lines 92 to 94 raise (ffprobe fails, its answer has no duration
    or one [float()] rejects, the division or [math.ceil] raises), the
    core declares no input, never starts ffmpeg and sends nothing: it
    logs the exception, tells the user once, and goes on to remove the
    uploaded file. *)
Theorem failed_probe_or_count (e : exn) (s : state) :
  ud_video_path (user_data s) = Some video_path ->
  ud_duration (user_data s) = Some clip_duration ->
  probe env video_path = Raise e
  \/ (exists total,
        probe env video_path = Ok total
        /\ clip_count total clip_duration = Raise e) ->
  post (core_processing env ctx) s (fun r s' ev =>
    exists probed found removal,
      ev = [ EProbe video_path probed; ELogError e;
             EReply (MsgError e) (reply_ok env (replies s));
             EExists video_path found ] ++ removal
      /\ (probed = true <-> exists total, probe env video_path = Ok total)
      /\ (removal = [] \/ exists done, removal = [ERemove video_path done])
      /\ requested ev = [] /\ runs ev = [] /\ sent ev = []
      /\ (fs s !! video_path <> Some Protected -> fs s' !! video_path = None)).
Proof.
  intros Hvp Hcd Hcase.
  core_paths_known env ctx s video_path clip_duration Hvp Hcd.
  all: destruct Hcase as [Hp | (total' & Hp & Hc)]; try congruence.
  all: try (assert (total' = total) by congruence; subst total'; try congruence).
  all: try match goal with
           | H : Raise ?e1 = Raise ?e2 |- _ =>
               assert (e1 = e2) by congruence; subst e1
           end.
  all: try match goal with
           | H1 : ?x = Raise ?e1, H2 : ?x = Raise ?e2 |- _ =>
               assert (e1 = e2) by congruence; subst e1
           end.
  all: match goal with
       | |- context [EProbe _ ?b :: _] => exists b
       end;
    match goal with
    | |- context [ERemove ?p ?d] => exists true, [ERemove p d]
    | |- _ => exists false, []
    end;
    (split; [ reflexivity |]);
    (split; [ split; [ intros; eauto; discriminate | intros (? & ?); congruence ] |]);
    (split; [ eauto |]);
    (split; [ reflexivity |]); (split; [ reflexivity |]); (split; [ reflexivity |]);
    intros Hrem; cbn [fs];
    first [ apply lookup_delete_eq | assumption | contradiction ].
Qed.

(** In every run of the core, whatever fails, the only files created,
    overwritten or removed are the uploaded video and the clips
    [part_<k>_<user id>.mp4] of this user: every other path is left as it
    was.  The user data is left as it was too. *)
Theorem core_touches_only_its_own_files (s : state) :
  ud_video_path (user_data s) = Some video_path ->
  post (core_processing env ctx) s (fun r s' ev =>
    untouched (own_path ctx video_path) s s' /\ user_data s' = user_data s).
Proof.
  intros Hvp.
  core_paths env ctx s video_path Hvp.
  all: split; [| reflexivity ].
  all: intros p Hp; cbn [fs]; try reflexivity.
  all: apply lookup_delete_ne; intros ->; apply Hp; left; reflexivity.
Qed.

Lemma first_window_run (total : Float.float) (n : Z) (s : state) :
  ud_video_path (user_data s) = Some video_path ->
  ud_duration (user_data s) = Some clip_duration ->
  probe env video_path = Ok total ->
  clip_count total clip_duration = Ok n ->
  0 < n ->
  (forall k, reply_ok env k = true) ->
  fs s !! video_path = Some Regular ->
  core_processing env ctx s
  = (Ok tt,
     {| user_data := user_data s; fs := delete video_path (fs s);
        replies := S (S (S (replies s))) |},
     [ EProbe video_path true;
       EReply (MsgDetected total n) true;
       EReply (MsgProcessing 1 n) true;
       EInput (input_stream video_path clip_duration 0);
       ELogError (AttributeError "FilterableStream" "scale");
       EReply (MsgError (AttributeError "FilterableStream" "scale")) true;
       EExists video_path true; ERemove video_path true ]).
Proof.
  intros Hvp Hcd Hprobe Hcount Hn Hreply Hfs.
  unfold core_processing, try_finally, try_except.
  rewrite (process_video_run env ctx video_path clip_duration s Hvp Hcd).
  rewrite Hprobe, Hcount. cbv zeta. rewrite !Hreply. cbn [negb].
  destruct (Z.leb_spec n 0) as [H0 | _]; [ lia |].
  rewrite report_error_run. cbn [replies replied user_data]. rewrite Hreply.
  rewrite (cleanup_run video_path) by exact Hvp.
  cbn [fs replied]. rewrite Hfs. reflexivity.
Qed.

(** With a positive clip count the job always ends the same way,
    whatever ffmpeg and the upload of a clip would do: the count is
    announced, the first window is declared, [input_stream.video.scale]
    raises [AttributeError] (ffmpeg-python streams have no such method),
    the error is logged and reported, and the uploaded file is removed.
    Nothing is transcoded and nothing is sent. *)
Theorem first_window_always_fails (total : Float.float) (n : Z) (s : state) :
  ud_video_path (user_data s) = Some video_path ->
  ud_duration (user_data s) = Some clip_duration ->
  probe env video_path = Ok total ->
  clip_count total clip_duration = Ok n ->
  0 < n ->
  (forall k, reply_ok env k = true) ->
  fs s !! video_path = Some Regular ->
  core_processing env ctx s
  = (Ok tt,
     {| user_data := user_data s; fs := delete video_path (fs s);
        replies := S (S (S (replies s))) |},
     [ EProbe video_path true;
       EReply (MsgDetected total n) true;
       EReply (MsgProcessing 1 n) true;
       EInput (input_stream video_path clip_duration 0);
       ELogError (AttributeError "FilterableStream" "scale");
       EReply (MsgError (AttributeError "FilterableStream" "scale")) true;
       EExists video_path true; ERemove video_path true ]).
Proof. apply first_window_run. Qed.

End More.

(** A job whose clip length is negative: all done, nothing to send. *)
Lemma all_done_means_all_delivered_witness :
  post (core_processing (Sample.fair (Sample.seconds 125)) Sample.ctx) (Sample.ready (-60))
    (fun r s' ev => all_done ev = [true] -> sent ev = [] /\ error_reports ev = []).
Proof.
  eapply post_mono.
  - apply (all_done_means_all_delivered (Sample.fair (Sample.seconds 125)) Sample.ctx
             "v.mp4" "Best of" "@me" "orange" (-60) (Sample.ready (-60))).
    repeat split; reflexivity.
  - intros r s' ev H Hdone.
    destruct (H Hdone) as (total & n & _ & _ & Hn & Hplan & _ & _ & Herr & _).
    split; [| exact Herr ].
    destruct (Hplan (fun _ => whole (input_stream "v.mp4" (-60) 0))) as [_ Hsent].
    rewrite Hsent. unfold planned. rewrite range_nonpos; [ reflexivity | exact Hn ].
Defined.

(** ffprobe's answer has no duration; and the answer ["0"] to the
    duration prompt. *)
Lemma failed_probe_or_count_witness :
  post (core_processing Sample.no_duration Sample.ctx) (Sample.ready 60)
    (fun r s' ev =>
       runs ev = [] /\ sent ev = [] /\ fs s' !! "v.mp4" = None)
  /\ post (core_processing (Sample.fair (Sample.seconds 125)) Sample.ctx) (Sample.ready 0)
       (fun r s' ev =>
          runs ev = [] /\ sent ev = [] /\ fs s' !! "v.mp4" = None).
Proof.
  split.
  - eapply post_mono.
    + apply (failed_probe_or_count Sample.no_duration Sample.ctx "v.mp4" 60
               (KeyError "duration") (Sample.ready 60) eq_refl eq_refl).
      left. reflexivity.
    + intros r s' ev (probed & found & removal & _ & _ & _ & _ & Hruns & Hsent & Hgone).
      split; [ exact Hruns |]. split; [ exact Hsent |].
      apply Hgone. vm_compute. discriminate.
  - eapply post_mono.
    + apply (failed_probe_or_count (Sample.fair (Sample.seconds 125)) Sample.ctx "v.mp4" 0
               ZeroDivisionError (Sample.ready 0) eq_refl eq_refl).
      right. exists (Sample.seconds 125). split; reflexivity.
    + intros r s' ev (probed & found & removal & _ & _ & _ & _ & Hruns & Hsent & Hgone).
      split; [ exact Hruns |]. split; [ exact Hsent |].
      apply Hgone. vm_compute. discriminate.
Defined.

(** A bystander file survives the run. *)
Lemma core_touches_only_its_own_files_witness :
  post (core_processing (Sample.fair (Sample.seconds 125)) Sample.ctx) (Sample.shared 60)
    (fun r s' ev => fs s' !! "notes.txt" = fs (Sample.shared 60) !! "notes.txt").
Proof.
  eapply post_mono.
  - apply (core_touches_only_its_own_files (Sample.fair (Sample.seconds 125)) Sample.ctx
             "v.mp4" (Sample.shared 60) eq_refl).
  - intros r s' ev [H _]. apply H.
    intros [E | (i & _ & E)]; [ discriminate E |].
    unfold output_filename in E. discriminate E.
Defined.

(** 125 s cut by 60: three clips announced, none made. *)
Lemma first_window_always_fails_witness :
  match core_processing (Sample.fair (Sample.seconds 125)) Sample.ctx (Sample.ready 60) with
  | (r, s', ev) =>
      r = Ok tt
      /\ omap window (requested ev) = [(0, 60)]
      /\ error_reports ev = [AttributeError "FilterableStream" "scale"]
      /\ runs ev = [] /\ sent ev = []
  end.
Proof.
  rewrite (first_window_always_fails (Sample.fair (Sample.seconds 125)) Sample.ctx
             "v.mp4" 60 (Sample.seconds 125) 3 (Sample.ready 60));
    [ repeat split; reflexivity | reflexivity | reflexivity | reflexivity | reflexivity
    | reflexivity | reflexivity | reflexivity ].
Defined.

(** ** The conversation as [main] wires it *)

Lemma idle_projections (ev : list event) :
  Forall idle ev ->
  runs ev = [] /\ sent ev = [] /\ failed_runs ev = [] /\ failed_sends ev = [].
Proof.
  induction 1 as [| e ev He _ IH]; [ repeat split |].
  destruct IH as (H1 & H2 & H3 & H4).
  destruct e; try contradiction; cbn; auto.
Qed.

Ltac quiet :=
  repeat first
    [ apply List.Forall_nil
    | apply Forall_app; split
    | apply List.Forall_cons; [ exact I |] ].

Section Dispatch.
Variable env : environment.
Variable ctx : context.

Lemma dropped (current : option conversation) (u : update) (s : state) :
  select env ctx current u = None ->
  process_update env ctx current u s = (Ok current, s, []).
Proof.
  intros H. unfold process_update, handle_update, try_except. rewrite H. reflexivity.
Qed.

Lemma no_state_takes_commands (c : conversation) (name : string) :
  first_match (states env ctx c) (Command name) = None
  /\ first_match (states env ctx c) (EditedCommand name) = None.
Proof. destruct c; split; reflexivity. Qed.

(** An update the conversation does not wait for is dropped without a
    reply and without a change of state, edited or not: outside a
    conversation everything but [/start] (in any case of the letters);
    inside one, every command but [/cancel] ([/start] included: there is
    no re-entry), every message that is neither text nor video, text
    while the video is awaited, and a video once it has been
    received. *)
Theorem unexpected_updates_are_dropped (s : state) :
  (forall u,
      (forall name, u = Command name \/ u = EditedCommand name ->
                    Py.lower name <> "start") ->
      process_update env ctx None u s = (Ok None, s, []))
  /\ (forall c name u,
        u = Command name \/ u = EditedCommand name ->
        Py.lower name <> "cancel" ->
        process_update env ctx (Some c) u s = (Ok (Some c), s, []))
  /\ (forall c, process_update env ctx (Some c) Other s = (Ok (Some c), s, []))
  /\ (forall text u,
        u = Text text \/ u = EditedText text ->
        process_update env ctx (Some GET_VIDEO) u s = (Ok (Some GET_VIDEO), s, []))
  /\ (forall c file_id u,
        u = Video file_id \/ u = EditedVideo file_id ->
        c <> GET_VIDEO ->
        process_update env ctx (Some c) u s = (Ok (Some c), s, [])).
Proof.
  split; [| split; [| split; [| split ]]].
  - intros u Hu. apply dropped. destruct u as [name | | | name | | |]; try reflexivity.
    + cbn [select entry_points first_match check_update].
      destruct (String.eqb_spec (Py.lower name) "start") as [E | _];
        [ exfalso; exact (Hu name (or_introl eq_refl) E) | reflexivity ].
    + cbn [select entry_points first_match check_update].
      destruct (String.eqb_spec (Py.lower name) "start") as [E | _];
        [ exfalso; exact (Hu name (or_intror eq_refl) E) | reflexivity ].
  - intros c name u Hu Hname. apply dropped. unfold select.
    destruct (no_state_takes_commands c name) as [H1 H2].
    destruct Hu as [-> | ->]; rewrite ?H1, ?H2;
      cbn [fallbacks first_match check_update];
      destruct (String.eqb_spec (Py.lower name) "cancel") as [E | _];
      solve [ contradiction | reflexivity ].
  - intros c. apply dropped. destruct c; reflexivity.
  - intros text u [-> | ->]; apply dropped; reflexivity.
  - intros c file_id u Hu Hc. apply dropped.
    destruct Hu as [-> | ->]; destruct c; try reflexivity; contradiction.
Qed.

Lemma seq_returns {A} (x : conversation) (m : M A) (k : M conversation) (s : state) :
  (forall s1, post k s1 (fun r _ _ => r = Ok x \/ exists e, r = Raise e)) ->
  post (m ;; k) s (fun r _ _ => r = Ok x \/ exists e, r = Raise e).
Proof.
  intros H. apply post_bind. unfold post at 1.
  destruct (m s) as [[[a | e] s1] ev1]; [| eauto ].
  eapply post_mono; [ apply H | cbv beta; auto ].
Qed.

Lemma ret_returns (x : conversation) (s : state) :
  post (ret x) s (fun r _ _ => r = Ok x \/ exists e, r = Raise e).
Proof. unfold post, ret. auto. Qed.

Ltac returns :=
  first
    [ unfold post, on_message, raise; right; eexists; reflexivity
    | eapply post_mono;
      [ repeat (apply seq_returns; intros ?); apply ret_returns
      | cbv beta; intros ? ? ? [-> | ?]; auto ] ].

Lemma callback_returns (c : conversation) (u : update) (callback : M conversation)
    (s : state) :
  select env ctx (Some c) u = Some callback ->
  post callback s (fun r _ _ =>
    r = Ok (following c)
    \/ (c = GET_DURATION /\ r = Ok GET_DURATION)
    \/ ((exists name, u = Command name /\ Py.lower name = "cancel") /\ r = Ok END)
    \/ exists e, r = Raise e).
Proof.
  unfold select.
  destruct (first_match (states env ctx c) u) as [cb |] eqn:E.
  - intros [= <-]. destruct c, u; try discriminate E; cbn in E; injection E as <-;
      cbn [on_message]; try solve [ returns ];
      try (unfold post, raise; do 3 right; eexists; reflexivity).
    unfold get_duration. destruct (Py.int _ _); returns.
  - destruct u as [name | | | name | | |]; try discriminate;
      cbn [fallbacks first_match check_update];
      destruct (String.eqb_spec (Py.lower name) "cancel") as [Hname | _];
      try discriminate; intros [= <-]; cbn [on_message].
    + eapply post_mono; [ repeat (apply seq_returns; intros ?); apply ret_returns |].
      cbv beta. intros r _ _ [-> | He]; [| auto ].
      right. right. left. split; [ eauto | reflexivity ].
    + unfold post, raise. do 3 right. eexists. reflexivity.
Qed.

(** One update never takes a conversation further than the next state,
    and never makes the application fail: after any update in state [c]
    the conversation is still in [c] (the update was dropped, the text
    was no number, or the callback raised and the exception was logged),
    or in the state that follows [c] (ended, after the colour), or ended
    by [/cancel], in any case of the letters. *)
Theorem conversation_moves_one_step (c : conversation) (u : update) (s : state) :
  post (process_update env ctx (Some c) u) s (fun r s' ev =>
    r = Ok (Some c)
    \/ r = Ok (stored (following c))
    \/ ((exists name, u = Command name /\ Py.lower name = "cancel") /\ r = Ok None)).
Proof.
  unfold process_update, handle_update.
  destruct (select env ctx (Some c) u) as [callback |] eqn:E.
  - apply post_try_except, post_bind.
    eapply post_mono; [ apply (callback_returns c u callback s E) |].
    cbv beta. intros r s1 ev1 [-> | [[-> ->] | [[Hu ->] | [e ->]]]].
    + unfold post, ret. auto.
    + unfold post, ret. auto.
    + unfold post, ret. auto.
    + unfold post, bind, logger_error, ret. auto.
  - unfold post, try_except, ret. auto.
Qed.

(** [/cancel] is honoured in every state of the conversation: the
    uploaded video named in the user data is removed when it exists
    (and can be unlinked), nothing else on disk and nothing in the user
    data changes, and the conversation ends; only when the closing reply
    cannot be sent does the conversation stay open, the file being
    removed all the same. *)
Theorem cancel_ends_any_conversation (c : conversation) (s : state) :
  (forall p, ud_video_path (user_data s) = Some p -> fs s !! p <> Some Protected) ->
  post (process_update env ctx (Some c) (Command "cancel")) s (fun r s' ev =>
    r = Ok (if reply_ok env (replies s) then None else Some c)
    /\ fs s' = match ud_video_path (user_data s) with
               | Some p => delete p (fs s)
               | None => fs s
               end
    /\ user_data s' = user_data s
    /\ runs ev = [] /\ sent ev = []).
Proof.
  intros Hrem. unfold process_update, handle_update, select.
  destruct (no_state_takes_commands c "cancel") as [-> _].
  cbn [fallbacks first_match check_update].
  replace (String.eqb (Py.lower "cancel") "cancel") with true by reflexivity.
  cbn [on_message].
  apply post_try_except, post_bind.
  destruct (ud_video_path (user_data s)) as [p |] eqn:Hvp.
  - unfold post at 1. rewrite (cancel_run env p s Hvp).
    destruct (fs s !! p) as [[|] |] eqn:Hp.
    + destruct (reply_ok env (replies s));
        unfold post, ret, bind, logger_error; cbn; repeat split.
    + exfalso. exact (Hrem p eq_refl Hp).
    + destruct (reply_ok env (replies s));
        unfold post, ret, bind, logger_error; cbn; repeat split;
        symmetry; apply delete_id; exact Hp.
  - unfold post at 1, cancel, bind, logger_info, reply_text, ret. rewrite Hvp. cbn.
    destruct (reply_ok env (replies s)); unfold post, ret, bind, logger_error; cbn;
      repeat split.
Qed.

End Dispatch.

Section Replies.
Variable env : environment.
Variable ctx : context.
Hypothesis replies_arrive : forall k, reply_ok env k = true.

Lemma step_start (s : state) :
  process_update env ctx None (Command "start") s
  = (Ok (Some GET_VIDEO), replied (user_data s) s, [EReply MsgStart true]).
Proof.
  unfold process_update, handle_update.
  change (select env ctx None (Command "start")) with (Some (start env)).
  unfold try_except, bind, start, reply_text, ret.
  cbn. rewrite replies_arrive. reflexivity.
Qed.

Lemma step_video (file_id : string) (s : state) :
  download_ok env (file_id ++ ".mp4")%string = true ->
  process_update env ctx (Some GET_VIDEO) (Video file_id) s
  = (Ok (Some GET_TITLE),
     {| user_data := with_video_path (file_id ++ ".mp4")%string (user_data s);
        fs := written (file_id ++ ".mp4")%string (fs s);
        replies := S (replies s) |},
     [EDownload (file_id ++ ".mp4")%string true; EReply MsgAskTitle true]).
Proof.
  intros Hd. unfold process_update, handle_update.
  cbn [select states first_match check_update on_message].
  unfold try_except, bind, get_video,
    download_to_drive, set_user_data, reply_text, ret.
  cbn. rewrite Hd. cbn. rewrite replies_arrive. reflexivity.
Qed.

Lemma step_title (text : string) (s : state) :
  process_update env ctx (Some GET_TITLE) (Text text) s
  = (Ok (Some GET_CHANNEL), replied (with_title text (user_data s)) s,
     [EReply MsgAskChannel true]).
Proof.
  unfold process_update, handle_update.
  cbn [select states first_match check_update on_message].
  unfold try_except, bind, get_title,
    set_user_data, reply_text, ret.
  cbn. rewrite replies_arrive. reflexivity.
Qed.

Lemma step_channel (text : string) (s : state) :
  process_update env ctx (Some GET_CHANNEL) (Text text) s
  = (Ok (Some GET_DURATION), replied (with_channel text (user_data s)) s,
     [EReply MsgAskDuration true]).
Proof.
  unfold process_update, handle_update.
  cbn [select states first_match check_update on_message].
  unfold try_except, bind, get_channel,
    set_user_data, reply_text, ret.
  cbn. rewrite replies_arrive. reflexivity.
Qed.

Lemma step_duration (text : string) (n : Z) (s : state) :
  Py.int (unicode env) text = Some n ->
  process_update env ctx (Some GET_DURATION) (Text text) s
  = (Ok (Some GET_COLOR), replied (with_duration n (user_data s)) s,
     [EReply MsgAskColor true]).
Proof.
  intros Hint. unfold process_update, handle_update, try_except, bind.
  cbn [select states first_match check_update on_message].
  rewrite (get_duration_accepts env text n s Hint (replies_arrive _)).
  reflexivity.
Qed.

Lemma step_not_a_number (text : string) (s : state) :
  Py.int (unicode env) text = None ->
  process_update env ctx (Some GET_DURATION) (Text text) s
  = (Ok (Some GET_DURATION), replied (user_data s) s,
     [EReply MsgNotValidNumber true]).
Proof.
  intros Hint. unfold process_update, handle_update, try_except, bind.
  cbn [select states first_match check_update on_message].
  rewrite (get_duration_reprompts env text s Hint (replies_arrive _)).
  reflexivity.
Qed.

(** The duration is asked for until a text is an integer: after any
    number of texts that [int()] rejects, each answered with the
    not-a-valid-number message, the first text it accepts is stored
    and the conversation moves on to the colour; the rejected texts
    leave no trace in the user data. *)
Theorem duration_asked_until_valid (bad : list string) (good : string) (n : Z)
    (s : state) :
  Forall (fun text => Py.int (unicode env) text = None) bad ->
  Py.int (unicode env) good = Some n ->
  post (run_updates env ctx (Some GET_DURATION) (map Text bad ++ [Text good])) s
    (fun r s' ev =>
       r = Ok (Some GET_COLOR)
       /\ ev = map (fun _ => EReply MsgNotValidNumber true) bad
               ++ [EReply MsgAskColor true]
       /\ user_data s' = with_duration n (user_data s)
       /\ fs s' = fs s
       /\ replies s' = (replies s + length bad + 1)%nat).
Proof.
  intros Hbad Hgood. revert s.
  induction Hbad as [| text bad Htext Hbad IH]; intros s.
  - unfold post. cbn [map app run_updates]. unfold bind.
    rewrite (step_duration good n s Hgood). cbn.
    repeat split. lia.
  - cbn [map app run_updates]. apply post_bind. unfold post at 1.
    rewrite (step_not_a_number text s Htext).
    eapply post_mono; [ apply IH |].
    cbv beta. intros r s' ev (-> & -> & U & F & R).
    repeat split; [ exact U | exact F | rewrite R; cbn; lia ].
Qed.

(** A whole conversation in which every call goes through: [/start], a
    video, a title, a channel name, a clip length for which the clip
    count is positive, and a colour.  Whatever the user data held
    before, the job that is taken up is the one just entered; the count
    is announced and the first window declared; then
    [input_stream.video.scale] raises, the error is reported to the user,
    the downloaded video is removed and the conversation is over.  No
    clip is transcoded or sent. *)
Theorem whole_conversation_ends_in_error
    (file_id title channel duration color : string) (n k : Z)
    (total : Float.float) (s : state) :
  download_ok env (file_id ++ ".mp4")%string = true ->
  probe env (file_id ++ ".mp4")%string = Ok total ->
  Py.int (unicode env) duration = Some n ->
  clip_count total n = Ok k ->
  0 < k ->
  fs s !! (file_id ++ ".mp4")%string <> Some Protected ->
  let video_path := (file_id ++ ".mp4")%string in
  let error := AttributeError "FilterableStream" "scale" in
  run_updates env ctx None
    [Command "start"; Video file_id; Text title; Text channel;
     Text duration; Text color] s
  = (Ok None,
     {| user_data :=
          {| ud_video_path := Some video_path; ud_title := Some title;
             ud_channel := Some channel; ud_duration := Some n;
             ud_color := Some color |};
        fs := delete video_path (fs s);
        replies := (9 + replies s)%nat |},
     [ EReply MsgStart true; EDownload video_path true; EReply MsgAskTitle true;
       EReply MsgAskChannel true; EReply MsgAskDuration true;
       EReply MsgAskColor true; EReply MsgAllSet true;
       EProbe video_path true; EReply (MsgDetected total k) true;
       EReply (MsgProcessing 1 k) true; EInput (input_stream video_path n 0);
       ELogError error; EReply (MsgError error) true;
       EExists video_path true; ERemove video_path true ]).
Proof.
  intros Hd Hprobe Hint Hcount Hk Hfs video_path error.
  cbn [run_updates]. unfold bind at 1. rewrite step_start.
  unfold bind at 1. rewrite (step_video file_id _ Hd).
  unfold bind at 1. rewrite step_title.
  unfold bind at 1. rewrite step_channel.
  unfold bind at 1. rewrite (step_duration duration n _ Hint).
  unfold bind at 1.
  unfold process_update, handle_update.
  cbn [select states first_match check_update on_message].
  unfold try_except, bind at 1, get_color_and_process.
  unfold bind at 1. unfold bind at 1. unfold set_user_data at 1.
  unfold bind at 1. unfold reply_text at 1. rewrite replies_arrive.
  cbn [replies replied user_data fs with_color with_duration with_channel with_title
         with_video_path ud_video_path ud_title ud_channel ud_duration ud_color].
  match goal with
  | |- context [core_processing env ctx ?s1] =>
      rewrite (first_window_run env ctx video_path n total k s1 eq_refl eq_refl
                 Hprobe Hcount Hk replies_arrive)
  end.
  - unfold ret. cbn [app fs replies user_data]. f_equal. f_equal. f_equal.
    fold video_path. unfold written.
    destruct (fs s !! video_path) as [[|] |] eqn:E.
    + reflexivity.
    + contradiction.
    + apply delete_insert_eq.
  - cbn [fs]. fold video_path. unfold written.
    destruct (fs s !! video_path) as [[|] |] eqn:E.
    + exact E.
    + contradiction.
    + apply lookup_insert_eq.
Qed.

End Replies.

(** ** No key is read before it is written, and no clip is ever made *)

Section Keys.
Variable env : environment.
Variable ctx : context.

Ltac no_key :=
  let Hr := fresh "Hr" in
  let Hk := fresh "Hk" in
  intros ? Hr; try discriminate Hr; injection Hr as <-; intros ? Hk; discriminate Hk.

Ltac log_one :=
  first
    [ exact I
    | let Hk := fresh "Hk" in intros ? Hk; discriminate Hk
    | let Hk := fresh "Hk" in intros ? Hk; subst; eexists; eassumption
    | match goal with
      | H : clip_count _ _ = Raise _ |- _ =>
          destruct (clip_count_raises _ _ _ H) as [[-> _] | [-> | [-> _]]];
          let Hk := fresh "Hk" in intros ? Hk; discriminate Hk
      end ].

Ltac logs :=
  repeat first
    [ assumption
    | apply List.Forall_nil
    | apply Forall_app; split
    | apply List.Forall_cons; [ log_one |] ].

Lemma core_reads_its_keys (s : state) :
  collected (Some GET_COLOR) (user_data s) ->
  post (core_processing env ctx) s (fun r s' ev =>
    (forall e, r = Raise e -> no_key_missing env e)
    /\ Forall (logs_no_missing_key env) ev
    /\ user_data s' = user_data s).
Proof.
  intros ([p Hp] & _ & _ & [d Hd]).
  core_paths_known env ctx s p d Hp Hd.
  all: split; [ no_key |]; split; [ logs | reflexivity ].
Qed.

Lemma core_is_idle (s : state) :
  post (core_processing env ctx) s (fun r s' ev => Forall idle ev).
Proof.
  destruct (ud_video_path (user_data s)) as [p |] eqn:Hp.
  - core_paths env ctx s p Hp. all: quiet.
  - unfold post, core_processing, try_finally, try_except.
    rewrite (process_video_no_path env ctx s Hp), report_error_run.
    unfold cleanup, bind, get_item. cbn [user_data replied]. rewrite Hp.
    destruct (reply_ok env (replies s)); quiet.
Qed.

Lemma dispatch_keeps (current : option conversation) (callback : M conversation)
    (s : state) :
  post callback s (fun r s' ev =>
    (forall e, r = Raise e -> no_key_missing env e)
    /\ Forall (logs_no_missing_key env) ev
    /\ collected current (user_data s')
    /\ forall new, r = Ok new -> collected (stored new) (user_data s')) ->
  post (try_except (new <- callback ;; ret (stored new))
          (fun e => logger_error e ;; ret current)) s
    (fun r s' ev =>
       (exists next, r = Ok next /\ collected next (user_data s'))
       /\ Forall (logs_no_missing_key env) ev).
Proof.
  intros H. apply post_try_except, post_bind.
  eapply post_mono; [ exact H |].
  cbv beta. intros [new | e] s1 ev1 (R1 & L1 & C1 & N1).
  - unfold post, ret. split; [ eauto | logs ].
  - unfold post, bind, logger_error, ret.
    split; [ eauto |].
    apply Forall_app. split; [ exact L1 |].
    apply List.Forall_cons; [| apply List.Forall_nil ].
    exact (R1 e eq_refl).
Qed.

Ltac intake Hc :=
  unfold post, on_message, raise, start, get_video, get_title, get_channel, bind,
    download_to_drive, set_user_data, reply_text, ret;
  cbn;
  repeat match goal with
         | |- context [download_ok env ?p] => destruct (download_ok env p)
         | |- context [reply_ok env ?k] => destruct (reply_ok env k)
         end;
  cbn;
  (split; [ no_key |]);
  (split; [ logs |]);
  (split; [ exact Hc |]);
  let new := fresh "new" in
  let Hnew := fresh "Hnew" in
  intros new Hnew; try discriminate Hnew; injection Hnew as <-;
  cbn in Hc |- *; intuition eauto.

Lemma step_keeps_collected (current : option conversation) (u : update) (s : state) :
  collected current (user_data s) ->
  post (process_update env ctx current u) s (fun r s' ev =>
    (exists next, r = Ok next /\ collected next (user_data s'))
    /\ Forall (logs_no_missing_key env) ev).
Proof.
  intros Hc. unfold process_update, handle_update.
  destruct (select env ctx current u) as [callback |] eqn:E.
  2:{ unfold post, try_except, ret. split; [ eauto | apply List.Forall_nil ]. }
  apply dispatch_keeps.
  destruct current as [c |]; unfold select in E.
  - destruct (first_match (states env ctx c) u) as [cb |] eqn:E1.
    + injection E as <-.
      destruct c, u; try discriminate E1; cbn in E1; injection E1 as <-;
        try solve [ intake Hc ].
      * unfold on_message, get_duration. destruct (Py.int _ _); intake Hc.
      * unfold on_message, get_color_and_process.
        apply post_bind. unfold post at 1, set_user_data.
        apply post_bind. unfold post at 1, reply_text. cbn [replies].
        destruct (reply_ok env (replies s)).
        2:{ split; [ no_key |]. split; [ logs |].
            split; [ exact Hc | intros new [=] ]. }
        apply post_bind.
        eapply post_mono;
          [ apply core_reads_its_keys; exact Hc |].
        cbv beta. intros [[] | e] s1 ev1 (R & L & U).
        -- unfold post, ret. split; [ no_key |]. split; [ logs |].
           split; [ rewrite U; exact Hc | intros new [= <-]; exact I ].
        -- split; [ intros e0 [= <-]; exact (R e eq_refl) |]. split; [ logs |].
           split; [ rewrite U; exact Hc | intros new [=] ].
    + destruct u as [name | | | name | | |]; try discriminate E;
        cbn [fallbacks first_match check_update] in E;
        (destruct (String.eqb (Py.lower name) "cancel"); [| discriminate E ]);
        injection E as <-; [| intake Hc ].
      unfold post, on_message, cancel, bind, logger_info, os_path_exists, os_remove,
        reply_text, ret.
      destruct (ud_video_path (user_data s)) as [p |]; cbn;
        [ destruct (fs s !! p) as [[|] |] eqn:F; cbn; rewrite ?F; cbn |];
        try destruct (reply_ok env (replies s));
        (split; [ no_key |]);
        (split; [ logs |]);
        (split; [ exact Hc | intros new [= <-] || intros new [=]; exact I ]).
  - destruct u as [name | | | name | | |]; try discriminate E;
      cbn [entry_points first_match check_update] in E;
      (destruct (String.eqb (Py.lower name) "start"); [| discriminate E ]);
      injection E as <-; intake Hc.
Qed.

Lemma step_is_idle (current : option conversation) (u : update) (s : state) :
  post (process_update env ctx current u) s (fun r s' ev =>
    (exists next, r = Ok next) /\ Forall idle ev).
Proof.
  unfold process_update, handle_update.
  destruct (select env ctx current u) as [callback |] eqn:E.
  2:{ unfold post, try_except, ret. split; [ eauto | apply List.Forall_nil ]. }
  assert (H : post callback s (fun r s' ev => Forall idle ev)).
  { destruct current as [c |]; unfold select in E.
    - destruct (first_match (states env ctx c) u) as [cb |] eqn:E1.
      + injection E as <-.
        destruct c, u; try discriminate E1; cbn in E1; injection E1 as <-;
          try solve
            [ unfold post, on_message, raise, get_video, get_title, get_channel,
                get_duration, bind, download_to_drive, set_user_data, reply_text, ret;
              cbn;
              repeat match goal with
                     | |- context [Py.int ?d ?t] => destruct (Py.int d t)
                     | |- context [download_ok env ?p] => destruct (download_ok env p)
                     | |- context [reply_ok env ?k] => destruct (reply_ok env k)
                     end;
              cbn; quiet ].
        unfold on_message, get_color_and_process.
        apply post_bind. unfold post at 1, set_user_data.
        apply post_bind. unfold post at 1, reply_text. cbn [replies].
        destruct (reply_ok env (replies s)); [| quiet ].
        apply post_bind.
        eapply post_mono; [ apply core_is_idle |].
        cbv beta. intros [[] | e] s1 ev1 Hidle; [ unfold post, ret |]; quiet;
          exact Hidle.
      + destruct u as [name | | | name | | |]; try discriminate E;
          cbn [fallbacks first_match check_update] in E;
          (destruct (String.eqb (Py.lower name) "cancel"); [| discriminate E ]);
          injection E as <-; [| unfold post, on_message, raise; quiet ].
        unfold post, on_message, cancel, bind, logger_info, os_path_exists, os_remove,
          reply_text, ret.
        destruct (ud_video_path (user_data s)) as [p |]; cbn;
          [ destruct (fs s !! p) as [[|] |] eqn:F; cbn; rewrite ?F; cbn |];
          try destruct (reply_ok env (replies s)); quiet.
    - destruct u as [name | | | name | | |]; try discriminate E;
        cbn [entry_points first_match check_update] in E;
        (destruct (String.eqb (Py.lower name) "start"); [| discriminate E ]);
        injection E as <-;
        unfold post, on_message, raise, start, bind, reply_text, ret; cbn;
        try destruct (reply_ok env (replies s)); quiet. }
  apply post_try_except, post_bind.
  eapply post_mono; [ exact H |].
  cbv beta. intros [new | e] s1 ev1 Hidle.
  - unfold post, ret. split; [ eauto |]. quiet; exact Hidle.
  - unfold post, bind, logger_error, ret. split; [ eauto |]. quiet; exact Hidle.
Qed.

(** The handlers read [user_data] with a bare index, which raises
    [KeyError] on a missing key.  The conversation never lets that
    happen: whatever the updates, whatever the calls that fail and
    whatever the user data held at first, each state is entered only
    with the keys stored that the states before it ask for, so that the
    last handler finds all it reads.  A [KeyError] in the log is one
    that ffprobe's answer raised (no ['format'], no ['duration']), never
    a key of the user data. *)
Theorem keys_are_stored_before_they_are_read (current : option conversation)
    (us : list update) (s : state) :
  collected current (user_data s) ->
  post (run_updates env ctx current us) s (fun r s' ev =>
    (exists last, r = Ok last /\ collected last (user_data s'))
    /\ forall key,
         KeyError key ∈ logged_errors ev ->
         exists path, probe env path = Raise (KeyError key)).
Proof.
  intros Hc.
  enough (H : post (run_updates env ctx current us) s (fun r s' ev =>
                (exists last, r = Ok last /\ collected last (user_data s'))
                /\ Forall (logs_no_missing_key env) ev)).
  { eapply post_mono; [ exact H |]. cbv beta. intros r s' ev [Hr Hlog].
    split; [ exact Hr |]. intros key Hin.
    apply list_elem_of_omap in Hin as (e & He & Hlogged).
    destruct e; try discriminate Hlogged. injection Hlogged as ->.
    rewrite Forall_forall in Hlog.
    exact (Hlog _ He key eq_refl). }
  revert current s Hc. induction us as [| u us IH]; intros current s Hc;
    cbn [run_updates].
  - unfold post, ret. split; [ eauto | apply List.Forall_nil ].
  - apply post_bind.
    eapply post_mono; [ apply step_keeps_collected; exact Hc |].
    cbv beta. intros r s1 ev1 [(next & -> & Hnext) L1].
    eapply post_mono; [ apply IH; exact Hnext |].
    cbv beta. intros r s2 ev2 [Hr L2]. split; [ exact Hr | logs ].
Qed.

(** Whatever updates arrive, in whatever state of the conversation, and
    whatever the calls to Telegram and ffprobe answer, the bot never
    runs ffmpeg, never opens a clip and never sends a video: every
    update is processed without the application failing, and no clip is
    ever made. *)
Theorem no_clip_is_ever_made (current : option conversation) (us : list update)
    (s : state) :
  post (run_updates env ctx current us) s (fun r s' ev =>
    (exists last, r = Ok last)
    /\ runs ev = [] /\ sent ev = [] /\ failed_runs ev = [] /\ failed_sends ev = []).
Proof.
  enough (H : post (run_updates env ctx current us) s (fun r s' ev =>
                (exists last, r = Ok last) /\ Forall idle ev)).
  { eapply post_mono; [ exact H |]. cbv beta. intros r s' ev [Hr Hidle].
    split; [ exact Hr | apply idle_projections, Hidle ]. }
  revert current s. induction us as [| u us IH]; intros current s; cbn [run_updates].
  - unfold post, ret. split; [ eauto | apply List.Forall_nil ].
  - apply post_bind.
    eapply post_mono; [ apply step_is_idle |].
    cbv beta. intros r s1 ev1 [(next & ->) L1].
    eapply post_mono; [ apply IH |].
    cbv beta. intros r s2 ev2 [Hr L2]. split; [ exact Hr |].
    apply Forall_app. split; assumption.
Qed.

End Keys.

(** [/cancel] while the title is awaited: the upload is removed. *)
Lemma cancel_ends_any_conversation_witness :
  post (process_update (Sample.fair (Sample.seconds 125)) Sample.ctx (Some GET_TITLE)
          (Command "cancel")) (Sample.ready 60)
    (fun r s' ev => r = Ok None /\ fs s' !! "v.mp4" = None).
Proof.
  eapply post_mono.
  - apply (cancel_ends_any_conversation (Sample.fair (Sample.seconds 125)) Sample.ctx
             GET_TITLE (Sample.ready 60)).
    intros p Hp. cbn in Hp. injection Hp as <-.
    unfold Sample.ready. cbn [fs]. rewrite lookup_singleton_eq. discriminate.
  - intros r s' ev (H1 & H2 & _). split; [ exact H1 |].
    rewrite H2. apply lookup_delete_eq.
Defined.

(** Three texts that are no integers, then sixty in Arabic-Indic digits. *)
Lemma duration_asked_until_valid_witness :
  post (run_updates (Sample.fair (Sample.seconds 125)) Sample.ctx (Some GET_DURATION)
          [Text "abc"; Text "1.5"; Text "sixty"; Text Sample.sixty_arabic_indic])
    Sample.first_contact
    (fun r s' ev =>
       r = Ok (Some GET_COLOR)
       /\ ud_duration (user_data s') = Some 60
       /\ replies s' = 4%nat).
Proof.
  eapply post_mono.
  - apply (duration_asked_until_valid (Sample.fair (Sample.seconds 125)) Sample.ctx
             (fun _ => eq_refl) ["abc"; "1.5"; "sixty"] Sample.sixty_arabic_indic 60
             Sample.first_contact).
    + repeat constructor.
    + reflexivity.
  - intros r s' ev (H1 & _ & H3 & _ & H5).
    rewrite H3, H5. split; [ exact H1 |]. split; reflexivity.
Defined.

(** A first conversation: 125 s cut by 60 ends with the error report. *)
Lemma whole_conversation_ends_in_error_witness :
  post (run_updates (Sample.fair (Sample.seconds 125)) Sample.ctx None
          [Command "start"; Video "v"; Text "Best of"; Text "@me"; Text "60";
           Text "orange"]) Sample.first_contact
    (fun r s' ev =>
       r = Ok None
       /\ error_reports ev = [AttributeError "FilterableStream" "scale"]
       /\ sent ev = []
       /\ fs s' !! "v.mp4" = None).
Proof.
  unfold post.
  rewrite (whole_conversation_ends_in_error (Sample.fair (Sample.seconds 125)) Sample.ctx
             (fun _ => eq_refl) "v" "Best of" "@me" "60" "orange" 60 3
             (Sample.seconds 125) Sample.first_contact);
    [ repeat split; reflexivity | reflexivity | reflexivity | reflexivity | reflexivity
    | reflexivity | vm_compute; discriminate ].
Defined.

(** The colour arrives for a job whose video ffprobe cannot describe: the
    [KeyError] in the log is ffprobe's. *)
Lemma keys_are_stored_before_they_are_read_witness :
  post (run_updates Sample.no_duration Sample.ctx (Some GET_COLOR)
          [Text "orange"; Command "cancel"]) (Sample.ready 60)
    (fun r s' ev =>
       (exists last, r = Ok last /\ collected last (user_data s'))
       /\ forall key,
            KeyError key ∈ logged_errors ev ->
            exists path, probe Sample.no_duration path = Raise (KeyError key)).
Proof.
  apply (keys_are_stored_before_they_are_read Sample.no_duration
           Sample.ctx (Some GET_COLOR) [Text "orange"; Command "cancel"]
           (Sample.ready 60)).
  cbn. repeat split; eauto.
Defined.
